(** * FusionSolar client: session renewal and throttle-aware retry

    A shallow embedding of [fusionsolar/client.py].  The client is a Python
    object with mutable fields that talks to a vendor server through a
    [requests.Session]; the embedding threads the client and the outside
    world through a state-and-exception monad and keeps a trace of the
    observable effects (HTTP POSTs and sleeps).  The calls to [logging] have
    no effect on the control flow and are left out, and so is
    [PandasClient], whose data frames play no part in the session and retry
    logic. *)

From Stdlib Require Import ZArith List Lia Bool Sorted.
From Stdlib Require Import Floats.PrimFloat.
From Stdlib Require Floats.SpecFloat Floats.FloatOps Floats.FloatAxioms.
From stdpp Require Import base strings gmap list option.

Local Open Scope Z_scope.
Local Set Warnings "-register-all,-inexact-float".

(** ** Decoded JSON / Python values *)

(** What [response.json()] yields and what the endpoint methods put in the
    parameter mapping.  A JSON number without fraction or exponent decodes to
    an [int], any other to a [float], an IEEE 754 double. *)
Inductive json : Type :=
| JNull
| JBool (b : bool)
| JInt (z : Z)
| JFloat (f : float)
| JStr (s : string)
| JList (l : list json)
| JObj (m : gmap string json).

(** Python truthiness, as used by [if not success]. *)
Definition truthy (v : json) : bool :=
  match v with
  | JNull => false
  | JBool b => b
  | JInt z => negb (z =? 0)
  | JFloat f => negb (PrimFloat.eqb f 0%float)
  | JStr s => negb (String.eqb s "")
  | JList l => match l with [] => false | _ => true end
  | JObj m => match map_to_list m with [] => false | _ => true end
  end.

(** A dict display [{k1: v1, k2: v2, ...}]. *)
Definition dict (items : list (string * json)) : json :=
  JObj (foldl (fun m kv => <[kv.1 := kv.2]> m) ∅ items).

(** The float with the value of an integer; exact below [2^53]. *)
Fixpoint float_of_positive (p : positive) : float :=
  match p with
  | xH => 1%float
  | xO q => PrimFloat.mul 2%float (float_of_positive q)
  | xI q => PrimFloat.add (PrimFloat.mul 2%float (float_of_positive q)) 1%float
  end.

Definition float_of_Z (n : Z) : float :=
  match n with
  | Z0 => 0%float
  | Zpos p => float_of_positive p
  | Zneg p => PrimFloat.opp (float_of_positive p)
  end.

(** [v == n] for the result [v] of [dict.get] and an integer literal [n]
    (below [2^53], as all of them are here): an absent key gives [None],
    [True]/[False] compare as 1/0, and a float is compared with the float of
    the same value as [n]. *)
Definition py_eq_int (v : option json) (n : Z) : bool :=
  match v with
  | Some (JInt z) => z =? n
  | Some (JBool b) => Z.b2z b =? n
  | Some (JFloat f) => PrimFloat.eqb f (float_of_Z n)
  | _ => false
  end.

(** ** Exceptions *)

Inductive exn : Type :=
| HTTPError (body : json)
| HTTPError407 (body : json)
| HTTPError305 (body : json)
| HTTPError306 (body : json)
| HTTPError307 (body : json)
| RequestsHTTPError (status : Z)   (* raised by [raise_for_status] *)
| RequestException                 (* raised by [session.post]: no response *)
| JSONDecodeError                  (* raised by [response.json()] *)
| AttributeError.                  (* [body.get] on a body that is no dict *)

Inductive Res (A : Type) : Type :=
| Ok (a : A)
| Raise (e : exn).
Arguments Ok {A} a.
Arguments Raise {A} e.

(** ** HTTP through [requests.Session] *)

(** The [Set-Cookie] headers of a response say, for a cookie name, the value
    to store or, with [Max-Age=0] or an [Expires] in the past, that the
    cookie is to be dropped ([None]); for a name given twice the last header
    decides.  Cookies are kept by name, for the one host the client talks
    to, and a cookie that is stored stays until a response replaces or
    expires it or the jar is cleared: a lifetime that runs out between two
    requests is not tracked. *)
Record Response : Type := mkResponse {
  status_code : Z;
  resp_json : option json;                 (* [None]: the body is not JSON *)
  set_cookie : gmap string (option string)
}.

(** [response.cookies]: the cookies the response sets, without those it
    expires. *)
Definition resp_cookies (r : Response) : gmap string string :=
  omap id (set_cookie r).

(** What the session's jar holds after the response: a cookie the response
    sets has the new value, a cookie it expires is gone, the others stay. *)
Definition store_cookies (r : Response) (jar : gmap string string)
  : gmap string string :=
  omap id (set_cookie r ∪ (Some <$> jar)).

Inductive Reply : Type :=
| NoResponse
| Replied (r : Response).

Record Request : Type := mkRequest {
  req_url : string;
  req_json : json;
  req_headers : gmap string string;
  req_cookies : gmap string string
}.

(** [session.headers] is a dict whose values may be [None]; [requests]
    leaves a header whose value is [None] out of the request.
    Only the headers the client itself sets are tracked. *)
Record Session : Type := mkSession {
  headers : gmap string (option string);
  cookies : gmap string string
}.

Record Client : Type := mkClient {
  user_name : string;
  system_code : string;
  max_retry : Z;
  base_url : string;
  session : Session;
  token_expiration_time : float   (* seconds since the epoch *)
}.

(** ** The outside world *)

Inductive Event : Type :=
| EvPost (rq : Request)
| EvSleep (seconds : Z).

(** The clock, the server and the random source are oracles: the [n]-th
    reading, the reply to the [n]-th request, the [n]-th draw. *)
Record World : Type := mkWorld {
  clock : nat -> float;
  clock_reads : nat;
  server : nat -> Request -> Reply;
  posts : nat;
  rng : nat -> Z;
  rng_draws : nat;
  trace : list Event
}.

Record State : Type := mkState {
  self : Client;
  world : World
}.

(** ** State-and-exception monad *)

Definition M (A : Type) : Type := State -> Res A * State.

Definition ret {A} (a : A) : M A := fun s => (Ok a, s).
Definition raise {A} (e : exn) : M A := fun s => (Raise e, s).
Definition bind {A B} (m : M A) (k : A -> M B) : M B :=
  fun s => match m s with
           | (Ok a, s') => k a s'
           | (Raise e, s') => (Raise e, s')
           end.
Definition lift {A} (r : Res A) : M A := fun s => (r, s).

Declare Scope m_scope.
Delimit Scope m_scope with M.
Bind Scope m_scope with M.
Notation "x <- c1 ;; c2" := (bind c1 (fun x => c2))
  (at level 100, c1 at next level, c2 at level 200, right associativity)
  : m_scope.
Notation "c1 ;; c2" := (bind c1 (fun _ => c2))
  (at level 100, c2 at level 200, right associativity) : m_scope.
Local Open Scope m_scope.

(** ** Primitive effects *)

(** The date a caller passes is a [pd.Timestamp]; it is kept by what its
    [timestamp()] reports, seconds since the epoch with microsecond
    resolution, as an exact count of microseconds. *)
Definition us_per_second : Z := 1000000.
Definition seconds (n : Z) : Z := n * us_per_second.

(** [pd.Timestamp.utcnow().timestamp()]: the clock's reading, a float of
    seconds since the epoch. *)
Definition utcnow : M float := fun s =>
  let w := world s in
  (Ok (clock w (clock_reads w)),
   mkState (self s)
     (mkWorld (clock w) (S (clock_reads w)) (server w) (posts w)
              (rng w) (rng_draws w) (trace w))).

(** [random.randint(a, b)]: an integer in the closed range [a..b]. *)
Definition randint (a b : Z) : M Z := fun s =>
  let w := world s in
  (Ok (a + rng w (rng_draws w) mod (b - a + 1)),
   mkState (self s)
     (mkWorld (clock w) (clock_reads w) (server w) (posts w)
              (rng w) (S (rng_draws w)) (trace w))).

(** [time.sleep(delay)] *)
Definition sleep (delay : Z) : M unit := fun s =>
  let w := world s in
  (Ok tt,
   mkState (self s)
     (mkWorld (clock w) (clock_reads w) (server w) (posts w)
              (rng w) (rng_draws w) (trace w ++ [EvSleep delay]))).

Definition set_session (c : Client) (se : Session) : Client :=
  mkClient (user_name c) (system_code c) (max_retry c) (base_url c) se
           (token_expiration_time c).

Definition set_token_expiration_time (c : Client) (t : float) : Client :=
  mkClient (user_name c) (system_code c) (max_retry c) (base_url c)
           (session c) t.

(** [self.session.post(url=url, json=body)].  A [requests.Session] sends
    its headers and the cookies of its jar with every request, and applies
    the [Set-Cookie] headers of the response to the jar for the requests that
    follow; this jar is what [login] clears. *)
Definition session_post (url : string) (body : json) : M Response := fun s =>
  let c := self s in
  let w := world s in
  let rq := mkRequest url body (omap id (headers (session c)))
                      (cookies (session c)) in
  let w' := mkWorld (clock w) (clock_reads w) (server w) (S (posts w))
                    (rng w) (rng_draws w) (trace w ++ [EvPost rq]) in
  match server w (posts w) rq with
  | NoResponse => (Raise RequestException, mkState c w')
  | Replied r =>
      let se := mkSession (headers (session c))
                          (store_cookies r (cookies (session c))) in
      (Ok r, mkState (set_session c se) w')
  end.

(** [self.session.cookies.clear()] *)
Definition cookies_clear : M unit := fun s =>
  let c := self s in
  (Ok tt, mkState (set_session c (mkSession (headers (session c)) ∅))
                  (world s)).

(** [self.session.headers.update({name: value})] *)
Definition headers_update (name : string) (value : option string) : M unit :=
  fun s =>
    let c := self s in
    (Ok tt,
     mkState (set_session c (mkSession (<[name := value]> (headers (session c)))
                                       (cookies (session c))))
             (world s)).

(** ** The client *)

(** [response.raise_for_status()] raises for a 4xx or 5xx status. *)
Definition raise_for_status (response : Response) : Res unit :=
  if (400 <=? status_code response) && (status_code response <? 600)
  then Raise (RequestsHTTPError (status_code response))
  else Ok tt.

(** [Client._validate_response] (a static method: no state). *)
Definition _validate_response (response : Response) : Res bool :=
  match raise_for_status response with
  | Raise e => Raise e
  | Ok _ =>
    match resp_json response with
    | None => Raise JSONDecodeError
    | Some (JObj m as body) =>
        let success := default (JBool false) (m !! "success") in
        if negb (truthy success) then
          if py_eq_int (m !! "failCode") 407 then Raise (HTTPError407 body)
          else if py_eq_int (m !! "failCode") 305 then Raise (HTTPError306 body)
          else if py_eq_int (m !! "failCode") 306 then Raise (HTTPError306 body)
          else if py_eq_int (m !! "failCode") 307 then Raise (HTTPError306 body)
          else Raise (HTTPError body)
        else Ok true
    | Some _ => Raise AttributeError
    end
  end.

(** [Client.login] *)
Definition login_url (c : Client) : string := base_url c +:+ "/login".

Definition login_body (c : Client) : json :=
  dict [("userName", JStr (user_name c));
        ("systemCode", JStr (system_code c))].

Definition login : M unit := fun s =>
  let url := login_url (self s) in
  let body := login_body (self s) in
  (cookies_clear ;;
   r <- session_post url body ;;
   lift (_validate_response r) ;;
   headers_update "XSRF-TOKEN" (resp_cookies r !! "XSRF-TOKEN") ;;
   t <- utcnow ;;
   fun s' => (Ok tt, mkState (set_token_expiration_time (self s')
                                (PrimFloat.add t 1200%float))
                             (world s'))) s.

(** The decorator [authenticated]. *)
Definition authenticated {A} (func : M A) : M A := fun s =>
  (now <- utcnow ;;
   if PrimFloat.leb (token_expiration_time (self s)) now
   then login ;; func else func) s.

(** The loop of [throttle_retry]: [for i in range(i, i + n)] with the
    original error [e] re-raised by the loop's [else]. *)
Fixpoint retry_loop {A} (func : M A) (e : exn) (i : Z) (n : nat) : M A :=
  match n with
  | O => raise e
  | S n' =>
      jitter <- randint 3 10 ;;
      let delay := i * 20 + jitter in
      sleep delay ;;
      fun s => match func s with
               | (Raise (HTTPError407 _), s') =>
                   retry_loop func e (i + 1) n' s'
               | out => out
               end
  end.

(** The decorator [throttle_retry]. *)
Definition throttle_retry {A} (func : M A) : M A := fun s =>
  match func s with
  | (Raise (HTTPError407 body), s1) =>
      retry_loop func (HTTPError407 body) 1
                 (Z.to_nat (max_retry (self s1))) s1
  | (Raise (HTTPError305 _), s1)
  | (Raise (HTTPError306 _), s1)
  | (Raise (HTTPError307 _), s1) => (login ;; func) s1
  | out => out
  end.

(** The undecorated body of [Client._request]. *)
Definition _request_body (function : string) (data : option json) : M json :=
  fun s =>
    let data := match data with None => JObj ∅ | Some d => d end in
    let url := base_url (self s) +:+ "/" +:+ function in
    (r <- session_post url data ;;
     lift (_validate_response r) ;;
     match resp_json r with
     | Some body => ret body
     | None => raise JSONDecodeError
     end) s.

(** [Client._request], decorated with [@throttle_retry @authenticated]. *)
Definition _request (function : string) (data : option json) : M json :=
  throttle_retry (authenticated (_request_body function data)).

(** [Client.__init__] and its defaults.  The expiry time starts as the int
    [0], which compares with a float as [0.0] does. *)
Definition default_max_retry : Z := 6.
Definition default_base_url : string :=
  "https://eu5.fusionsolar.huawei.com/thirdData".

Definition Client_init (user_name system_code : string) (max_retry : Z)
    (base_url : string) : Client :=
  mkClient user_name system_code max_retry base_url
    (mkSession (<["Connection" := Some "keep-alive"]>
                (<["Content-Type" := Some "application/json"]> ∅)) ∅)
    0%float.

(** [Client.__enter__] *)
Definition __enter__ : M unit := login.

(** ** Endpoint methods *)

(** A [pd.Timestamp], by the value its [timestamp()] method reports. *)
Record Timestamp : Type := mkTimestamp {
  timestamp : Z   (* microseconds since the epoch *)
}.

(** [int(x)] for a number of seconds [x]: the fraction is cut off, towards
    zero. *)
Definition py_int (x : Z) : Z := x ÷ us_per_second.

Definition get_station_list : M json :=
  _request "getStationList" None.

Definition get_station_kpi_real (station_code : string) : M json :=
  _request "getStationRealKpi"
           (Some (dict [("stationCodes", JStr station_code)])).

Definition get_station_kpi_hour (station_code : string) (date : Timestamp)
  : M json :=
  let time := py_int (timestamp date) * 1000 in
  _request "getKpiStationHour"
           (Some (dict [("stationCodes", JStr station_code);
                        ("collectTime", JInt time)])).

Definition get_station_kpi_day (station_code : string) (date : Timestamp)
  : M json :=
  let time := py_int (timestamp date) * 1000 in
  _request "getKpiStationDay"
           (Some (dict [("stationCodes", JStr station_code);
                        ("collectTime", JInt time)])).

Definition get_station_kpi_month (station_code : string) (date : Timestamp)
  : M json :=
  let time := py_int (timestamp date) * 1000 in
  _request "getKpiStationMonth"
           (Some (dict [("stationCodes", JStr station_code);
                        ("collectTime", JInt time)])).

Definition get_station_kpi_year (station_code : string) (date : Timestamp)
  : M json :=
  let time := py_int (timestamp date) * 1000 in
  _request "getKpiStationYear"
           (Some (dict [("stationCodes", JStr station_code);
                        ("collectTime", JInt time)])).

Definition get_dev_list (station_code : string) : M json :=
  _request "getDevList" (Some (dict [("stationCodes", JStr station_code)])).

Definition get_dev_kpi_real (dev_id : string) (dev_type_id : Z) : M json :=
  _request "getDevRealKpi"
           (Some (dict [("devIds", JStr dev_id);
                        ("devTypeId", JInt dev_type_id)])).

Definition get_dev_kpi_fivemin (dev_id : string) (dev_type_id : Z)
    (date : Timestamp) : M json :=
  let time := py_int (timestamp date) * 1000 in
  _request "getDevFiveMinutes"
           (Some (dict [("devIds", JStr dev_id);
                        ("devTypeId", JInt dev_type_id);
                        ("collectTime", JInt time)])).

Definition get_dev_kpi_hour (dev_id : string) (dev_type_id : Z)
    (date : Timestamp) : M json :=
  let time := py_int (timestamp date) * 1000 in
  _request "getDevKpiHour"
           (Some (dict [("devIds", JStr dev_id);
                        ("devTypeId", JInt dev_type_id);
                        ("collectTime", JInt time)])).

Definition get_dev_kpi_day (dev_id : string) (dev_type_id : Z)
    (date : Timestamp) : M json :=
  let time := py_int (timestamp date) * 1000 in
  _request "getDevKpiDay"
           (Some (dict [("devIds", JStr dev_id);
                        ("devTypeId", JInt dev_type_id);
                        ("collectTime", JInt time)])).

Definition get_dev_kpi_month (dev_id : string) (dev_type_id : Z)
    (date : Timestamp) : M json :=
  let time := py_int (timestamp date) * 1000 in
  _request "getDevKpiMonth"
           (Some (dict [("devIds", JStr dev_id);
                        ("devTypeId", JInt dev_type_id);
                        ("collectTime", JInt time)])).

Definition get_dev_kpi_year (dev_id : string) (dev_type_id : Z)
    (date : Timestamp) : M json :=
  let time := py_int (timestamp date) * 1000 in
  _request "getDevKpiYear"
           (Some (dict [("devIds", JStr dev_id);
                        ("devTypeId", JInt dev_type_id);
                        ("collectTime", JInt time)])).

Definition dev_on_off (dev_id : string) (dev_type_id control_type : Z)
  : M json :=
  _request "devOnOff"
           (Some (dict [("devIds", JStr dev_id);
                        ("devTypeId", JInt dev_type_id);
                        ("controlType", JInt control_type)])).

Definition dev_upgrade (dev_id : string) (dev_type_id : Z) : M json :=
  _request "devUpgrade"
           (Some (dict [("devIds", JStr dev_id);
                        ("devTypeId", JInt dev_type_id)])).

Definition get_dev_upgradeinfo (dev_id : string) (dev_type_id : Z) : M json :=
  _request "getDevUpgradeInfo"
           (Some (dict [("devIds", JStr dev_id);
                        ("devTypeId", JInt dev_type_id)])).

(** ** Observations *)

(** The reading the clock gives next. *)
Definition now (s : State) : float :=
  clock (world s) (clock_reads (world s)).

(** The check of [authenticated]: the stored expiry time is at or before the
    clock's next reading. *)
Definition expired (s : State) : bool :=
  PrimFloat.leb (token_expiration_time (self s)) (now s).

(** The value under a key is the number [n]: the integer itself or a float
    equal to it. *)
Definition is_number (v : option json) (n : Z) : Prop :=
  v = Some (JInt n) \/
  exists f, v = Some (JFloat f) /\ PrimFloat.eqb f (float_of_Z n) = true.

(** The reply the server gives to the next request, if it is [rq]. *)
Definition next_reply (s : State) (rq : Request) : Reply :=
  server (world s) (posts (world s)) rq.

(** The delays slept, in order. *)
Fixpoint sleeps (t : list Event) : list Z :=
  match t with
  | [] => []
  | EvSleep d :: t' => d :: sleeps t'
  | EvPost _ :: t' => sleeps t'
  end.

(** The requests posted, in order. *)
Fixpoint posted (t : list Event) : list Request :=
  match t with
  | [] => []
  | EvPost rq :: t' => rq :: posted t'
  | EvSleep _ :: t' => posted t'
  end.

(** The request [login] posts, and the one [_request] posts, for a client in
    a given state. *)
Definition login_request (c : Client) : Request :=
  mkRequest (login_url c) (login_body c) (omap id (headers (session c))) ∅.

Definition op_url (c : Client) (function : string) : string :=
  base_url c +:+ "/" +:+ function.

Definition op_data (data : option json) : json :=
  match data with None => JObj ∅ | Some d => d end.

Definition op_request (c : Client) (function : string) (data : option json)
  : Request :=
  mkRequest (op_url c function) (op_data data)
            (omap id (headers (session c))) (cookies (session c)).

(** The construction parameters of a client: no method assigns them. *)
Definition config (c : Client) : string * string * Z * string :=
  (user_name c, system_code c, max_retry c, base_url c).

Definition is_throttled {A} (r : Res A) : bool :=
  match r with Raise (HTTPError407 _) => true | _ => false end.

Definition is_session_invalid (e : exn) : bool :=
  match e with
  | HTTPError305 _ | HTTPError306 _ | HTTPError307 _ => true
  | _ => false
  end.

(** The wrapped call that [throttle_retry] invokes for [_request]. *)
Definition call (function : string) (data : option json) : M json :=
  authenticated (_request_body function data).

(** [backoff i]: what the loop of [throttle_retry] does before retry [i]. *)
Definition backoff (i : Z) : M unit :=
  jitter <- randint 3 10 ;; sleep (i * 20 + jitter).

(** [attempt func i s k]: the outcome of the [k]-th further invocation of
    [func] ([k = 0]: the one made in state [s]) when every invocation before
    it was throttled and the next retry has index [i]. *)
Fixpoint attempt {A} (func : M A) (i : Z) (s : State) (k : nat)
  : Res A * State :=
  match k with
  | O => func s
  | S k' => attempt func (i + 1) (snd (backoff i (snd (func s)))) k'
  end.

(** The delays [i*20 + j] for the retries [i, i+1, ...] with jitters [js]. *)
Fixpoint backoff_delays (i : Z) (js : list Z) : list Z :=
  match js with
  | [] => []
  | j :: js' => (i * 20 + j) :: backoff_delays (i + 1) js'
  end.

(** A step from [s] to [s'] leaves the configuration and the oracles alone
    and extends the trace by events that satisfy [P]. *)
Definition extends (P : Event -> Prop) (s s' : State) : Prop :=
  config (self s') = config (self s) /\
  clock (world s') = clock (world s) /\
  server (world s') = server (world s) /\
  rng (world s') = rng (world s) /\
  exists new, trace (world s') = trace (world s) ++ new /\ Forall P new.

(** The events of one wrapped call: the POST of [login] or of the operation,
    by a client with the configuration of [c]. *)
Definition call_event (c : Client) (function : string) (data : option json)
    (e : Event) : Prop :=
  exists c', config c' = config c /\
    (e = EvPost (login_request c') \/ e = EvPost (op_request c' function data)).

Definition dispatch_event (c : Client) (function : string)
    (data : option json) (e : Event) : Prop :=
  call_event c function data e \/ exists d, e = EvSleep d.

(** The state after the clock was read once. *)
Definition tick (s : State) : State :=
  let w := world s in
  mkState (self s)
    (mkWorld (clock w) (S (clock_reads w)) (server w) (posts w)
             (rng w) (rng_draws w) (trace w)).

(** The state after [rq] was posted, with the cookie jar now [jar]. *)
Definition after_post (s : State) (rq : Request) (jar : gmap string string)
  : State :=
  let w := world s in
  mkState (set_session (self s) (mkSession (headers (session (self s))) jar))
    (mkWorld (clock w) (clock_reads w) (server w) (S (posts w))
             (rng w) (rng_draws w) (trace w ++ [EvPost rq])).

(** The state after a [login] that the server answered with the valid
    response [r]. *)
Definition logged_in (s : State) (r : Response) : State :=
  let c := self s in
  let w := world s in
  mkState
    (mkClient (user_name c) (system_code c) (max_retry c) (base_url c)
       (mkSession
          (<["XSRF-TOKEN" := resp_cookies r !! "XSRF-TOKEN"]>
             (headers (session c)))
          (store_cookies r ∅))
       (PrimFloat.add (now s) 1200%float))
    (mkWorld (clock w) (S (clock_reads w)) (server w) (S (posts w))
             (rng w) (rng_draws w)
             (trace w ++ [EvPost (login_request c)])).

(** ** The endpoint methods that take a date *)

Inductive date_call : Type :=
| StationKpiHour (station_code : string)
| StationKpiDay (station_code : string)
| StationKpiMonth (station_code : string)
| StationKpiYear (station_code : string)
| DevKpiFivemin (dev_id : string) (dev_type_id : Z)
| DevKpiHour (dev_id : string) (dev_type_id : Z)
| DevKpiDay (dev_id : string) (dev_type_id : Z)
| DevKpiMonth (dev_id : string) (dev_type_id : Z)
| DevKpiYear (dev_id : string) (dev_type_id : Z).

Definition run_date_call (dc : date_call) (date : Timestamp) : M json :=
  match dc with
  | StationKpiHour sc => get_station_kpi_hour sc date
  | StationKpiDay sc => get_station_kpi_day sc date
  | StationKpiMonth sc => get_station_kpi_month sc date
  | StationKpiYear sc => get_station_kpi_year sc date
  | DevKpiFivemin dev ty => get_dev_kpi_fivemin dev ty date
  | DevKpiHour dev ty => get_dev_kpi_hour dev ty date
  | DevKpiDay dev ty => get_dev_kpi_day dev ty date
  | DevKpiMonth dev ty => get_dev_kpi_month dev ty date
  | DevKpiYear dev ty => get_dev_kpi_year dev ty date
  end.

Definition operation_name (dc : date_call) : string :=
  match dc with
  | StationKpiHour _ => "getKpiStationHour"
  | StationKpiDay _ => "getKpiStationDay"
  | StationKpiMonth _ => "getKpiStationMonth"
  | StationKpiYear _ => "getKpiStationYear"
  | DevKpiFivemin _ _ => "getDevFiveMinutes"
  | DevKpiHour _ _ => "getDevKpiHour"
  | DevKpiDay _ _ => "getDevKpiDay"
  | DevKpiMonth _ _ => "getDevKpiMonth"
  | DevKpiYear _ _ => "getDevKpiYear"
  end.

(** Whole seconds since the epoch, times 1000. *)
Definition epoch_milliseconds (date : Timestamp) : Z :=
  (timestamp date ÷ us_per_second) * 1000.

(** Days from 1970-01-01 to a date of the proleptic Gregorian calendar. *)
Definition days_from_civil (y m d : Z) : Z :=
  let y' := if m <=? 2 then y - 1 else y in
  let era := y' / 400 in
  let yoe := y' - era * 400 in
  let doy := (153 * ((m + 9) mod 12) + 2) / 5 + d - 1 in
  let doe := yoe * 365 + yoe / 4 - yoe / 100 + doy in
  era * 146097 + doe - 719468.

(** The timestamp of a calendar date and time of day in UTC. *)
Definition Timestamp_utc (year month day hour minute second : Z) : Timestamp :=
  mkTimestamp
    (seconds (days_from_civil year month day * 86400
              + hour * 3600 + minute * 60 + second)).

(** An event of a date-taking call is a sleep, the POST of [login], or a POST
    to the operation whose body maps [collectTime] to the integer [ms]. *)
Definition collect_time_event (c : Client) (operation : string) (ms : Z)
    (e : Event) : Prop :=
  match e with
  | EvSleep _ => True
  | EvPost rq =>
      (req_url rq = login_url c /\ req_json rq = login_body c) \/
      (req_url rq = op_url c operation /\
       exists m, req_json rq = JObj m /\ m !! "collectTime" = Some (JInt ms))
  end.

(** ** Envelopes, servers and worlds for the scenarios *)

Definition failure_envelope (code : Z) : json :=
  dict [("success", JBool false); ("failCode", JInt code)].

Definition success_envelope (data : json) : json :=
  dict [("success", JBool true); ("data", data)].

Definition ok_response (body : json) (set_cookies : gmap string string)
  : Response :=
  mkResponse 200 (Some body) (Some <$> set_cookies).

(** The server gives the replies of a script in order, whatever is asked, and
    no response once the script is over. *)
Definition scripted (script : list Response) : nat -> Request -> Reply :=
  fun n _ => match script !! n with
             | Some r => Replied r
             | None => NoResponse
             end.

(** A world at its start: the clock stands at [t], the [n]-th draw of the
    random source is [n]. *)
Definition world_at (t : float) (srv : nat -> Request -> Reply) : World :=
  mkWorld (fun _ => t) 0 srv 0 (fun n => Z.of_nat n) 0 [].

(** A world at its start whose clock gives the readings of a list in order
    and stays at the last of them. *)
Definition world_reading (readings : list float)
    (srv : nat -> Request -> Reply) : World :=
  mkWorld (fun n => nth n readings (List.last readings 0%float)) 0 srv 0
          (fun n => Z.of_nat n) 0 [].

Definition new_year_2024 : Timestamp := Timestamp_utc 2024 1 1 0 0 0.

Definition fresh_client : Client :=
  Client_init "user" "secret" default_max_retry default_base_url.

Definition login_ok : Response :=
  ok_response (success_envelope JNull) {["XSRF-TOKEN" := "abc123"]}.

(** The next [n] replies of the server are the throttling envelope. *)
Definition replies_407 (s : State) (n : nat) : Prop :=
  forall i rq, (i < n)%nat ->
    exists r, server (world s) (posts (world s) + i)%nat rq = Replied r /\
              status_code r = 200 /\
              resp_json r = Some (failure_envelope 407).

(** The jitter [random.randint(3, 10)] may give. *)
Definition jitter_ok (j : Z) : Prop := 3 <= j <= 10.

Definition any_event (e : Event) : Prop := True.

(** The server gives the same reply to every request. *)
Definition always (r : Response) : nat -> Request -> Reply :=
  fun _ _ => Replied r.

Definition throttled_response : Response :=
  ok_response (failure_envelope 407) ∅.

(** A client that entered its session one minute after the epoch. *)
Definition session_client : Client :=
  self (snd (__enter__
               (mkState fresh_client
                        (world_at 60%float (scripted [login_ok]))))).

(** That client two minutes after the epoch, facing a server. *)
Definition session_state (srv : nat -> Request -> Reply) : State :=
  mkState session_client (world_at 120%float srv).

(** Midnight of 2024-01-01 in UTC as a reading of the clock. *)
Definition new_year_2024_clock : float := 1704067200%float.

(** Operations called one after the other on the same client, each in the
    state the one before left, whatever its outcome was. *)
Definition run_all (ops : list (string * option json)) (s : State) : State :=
  foldl (fun st op => snd (_request op.1 op.2 st)) s ops.

(** An event is sent with the session headers [h]. *)
Definition sent_with (h : gmap string (option string)) (e : Event) : Prop :=
  match e with
  | EvPost rq => req_headers rq = omap id h
  | EvSleep _ => True
  end.

(** From [s] to [s'] the session headers are in use until a login is sent:
    the new events are requests and sleeps with the headers of [s], then,
    if anything more, a login request with those headers and what follows
    it; when no login was sent the headers are still those of [s]. *)
Definition headers_kept (s s' : State) : Prop :=
  let h := headers (session (self s)) in
  config (self s') = config (self s) /\
  exists pre post,
    trace (world s') = trace (world s) ++ pre ++ post /\
    Forall (sent_with h) pre /\
    ((post = [] /\ headers (session (self s')) = h) \/
     (exists rq rest,
        post = EvPost rq :: rest /\
        req_url rq = login_url (self s) /\
        req_json rq = login_body (self s) /\
        req_headers rq = omap id h)).

(** [Client.__exit__] *)
Definition __exit__ : M unit := ret tt.

(** The number of requests posted so far. *)
Definition n_posted (s : State) : nat := length (posted (trace (world s))).

(** The sum of a list of delays. *)
Definition total (l : list Z) : Z := foldr Z.add 0 l.

(** What a request of an operation may be: the POST of [login], with the
    credentials and no cookie, or the POST of the operation with its data. *)
Definition request_event (c : Client) (function : string)
    (data : option json) (e : Event) : Prop :=
  match e with
  | EvSleep _ => True
  | EvPost rq =>
      (req_url rq = login_url c /\ req_json rq = login_body c /\
       req_cookies rq = ∅) \/
      (req_url rq = op_url c function /\ req_json rq = op_data data)
  end.

(** * Properties *)

Lemma sleeps_app t1 t2 : sleeps (t1 ++ t2) = sleeps t1 ++ sleeps t2.
Proof.
  induction t1 as [|[rq|d] t1 IH]; cbn; [done | done |].
  by rewrite IH.
Qed.

Lemma posted_app t1 t2 : posted (t1 ++ t2) = posted t1 ++ posted t2.
Proof.
  induction t1 as [|[rq|d] t1 IH]; cbn; [done | | done].
  by rewrite IH.
Qed.

Lemma extends_refl P s : extends P s s.
Proof.
  repeat split; exists []. by rewrite app_nil_r.
Qed.

Lemma extends_trans P s1 s2 s3 :
  extends P s1 s2 -> extends P s2 s3 -> extends P s1 s3.
Proof.
  intros (Hc & Hk & Hs & Hr & n1 & Ht & Hn1) (Hc' & Hk' & Hs' & Hr' & n2 & Ht' & Hn2).
  repeat split; try congruence.
  exists (n1 ++ n2). split.
  - rewrite Ht', Ht. by rewrite app_assoc.
  - by apply Forall_app.
Qed.

Lemma extends_mono (P Q : Event -> Prop) s s' :
  (forall e, P e -> Q e) -> extends P s s' -> extends Q s s'.
Proof.
  intros HPQ (Hc & Hk & Hs & Hr & n & Ht & Hn).
  repeat split; try done.
  exists n. split; [done |]. eapply Forall_impl; eauto.
Qed.

Lemma call_event_no_sleep c f d new :
  Forall (call_event c f d) new -> sleeps new = [].
Proof.
  induction 1 as [|e new He _ IH]; [done |].
  destruct He as (c' & _ & [-> | ->]); cbn; done.
Qed.

Lemma extends_call_sleeps c f d s s' :
  extends (call_event c f d) s s' ->
  sleeps (trace (world s')) = sleeps (trace (world s)).
Proof.
  intros (_ & _ & _ & _ & new & -> & Hnew).
  rewrite sleeps_app, (call_event_no_sleep _ _ _ _ Hnew). by rewrite app_nil_r.
Qed.

(** ** What one call of [login], [_request_body] and [authenticated] does *)

Lemma login_unfold s :
  login s =
  match next_reply s (login_request (self s)) with
  | NoResponse =>
      (Raise RequestException, after_post s (login_request (self s)) ∅)
  | Replied r =>
      match _validate_response r with
      | Raise e =>
          (Raise e, after_post s (login_request (self s)) (store_cookies r ∅))
      | Ok _ => (Ok tt, logged_in s r)
      end
  end.
Proof.
  unfold login, next_reply, login_request, bind, cookies_clear, session_post,
    lift, headers_update, utcnow. cbn.
  destruct (server _ _ _) as [|r]; [reflexivity |]. cbn.
  destruct (_validate_response r); reflexivity.
Qed.

Lemma request_body_unfold f d s :
  _request_body f d s =
  match next_reply s (op_request (self s) f d) with
  | NoResponse =>
      (Raise RequestException,
       after_post s (op_request (self s) f d) (cookies (session (self s))))
  | Replied r =>
      let s1 := after_post s (op_request (self s) f d)
                           (store_cookies r (cookies (session (self s)))) in
      match _validate_response r with
      | Raise e => (Raise e, s1)
      | Ok _ => match resp_json r with
                | Some body => (Ok body, s1)
                | None => (Raise JSONDecodeError, s1)
                end
      end
  end.
Proof.
  destruct s as [[u sc mr bu [h ck] t] w].
  unfold _request_body, next_reply, op_request, op_url, op_data, bind,
    session_post, lift. cbn.
  destruct (server _ _ _) as [|r]; [reflexivity |]. cbn.
  destruct (_validate_response r); [| reflexivity].
  destruct (resp_json r); reflexivity.
Qed.

Lemma authenticated_unfold {A} (func : M A) s :
  authenticated func s =
  if expired s
  then match login (tick s) with
       | (Ok _, s') => func s'
       | (Raise e, s') => (Raise e, s')
       end
  else func (tick s).
Proof.
  unfold authenticated, bind, utcnow, expired, now, tick. cbn.
  destruct (PrimFloat.leb _ _); reflexivity.
Qed.

(** A valid response carries a JSON body. *)
Lemma validate_ok_json r b :
  _validate_response r = Ok b -> exists m, resp_json r = Some (JObj m).
Proof.
  unfold _validate_response.
  destruct (raise_for_status r); [| done].
  destruct (resp_json r) as [[| | | | | |m]|]; try done.
  eauto.
Qed.

(** ** Every step only extends the trace *)

Lemma tick_extends P s : extends P s (tick s).
Proof.
  destruct s as [c w]. repeat split; cbn. exists []. by rewrite app_nil_r.
Qed.

Lemma after_post_extends (P : Event -> Prop) s rq jar :
  P (EvPost rq) -> extends P s (after_post s rq jar).
Proof.
  intros HP. destruct s as [c w]. repeat split; cbn.
  exists [EvPost rq]. split; [done |]. by constructor.
Qed.

Lemma logged_in_extends (P : Event -> Prop) s r :
  P (EvPost (login_request (self s))) -> extends P s (logged_in s r).
Proof.
  intros HP. destruct s as [c w]. repeat split; cbn.
  exists [EvPost (login_request c)]. split; [done |]. by constructor.
Qed.

Lemma login_extends (P : Event -> Prop) s :
  P (EvPost (login_request (self s))) -> extends P s (snd (login s)).
Proof.
  intros HP. rewrite login_unfold.
  destruct (next_reply _ _) as [|r]; cbn.
  - by apply after_post_extends.
  - destruct (_validate_response r); cbn.
    + by apply logged_in_extends.
    + by apply after_post_extends.
Qed.

Lemma request_body_extends (P : Event -> Prop) f d s :
  P (EvPost (op_request (self s) f d)) ->
  extends P s (snd (_request_body f d s)).
Proof.
  intros HP. rewrite request_body_unfold.
  destruct (next_reply _ _) as [|r]; cbn.
  - by apply after_post_extends.
  - destruct (_validate_response r); cbn.
    + destruct (resp_json r); cbn; by apply after_post_extends.
    + by apply after_post_extends.
Qed.

Lemma call_extends c f d s :
  config (self s) = config c ->
  extends (call_event c f d) s (snd (call f d s)).
Proof.
  intros Hc. unfold call. rewrite authenticated_unfold.
  assert (Hl : call_event c f d (EvPost (login_request (self (tick s))))).
  { exists (self s). split; [done |]. by left. }
  destruct (expired _).
  - pose proof (login_extends _ (tick s) Hl) as Hlog.
    destruct (login (tick s)) as [[[]|e] s'] eqn:E; cbn in Hlog |- *.
    + eapply extends_trans; [apply tick_extends |].
      eapply extends_trans; [exact Hlog |].
      apply request_body_extends.
      exists (self s'). split; [| by right].
      destruct Hlog as (-> & _). exact Hc.
    + eapply extends_trans; [apply tick_extends | exact Hlog].
  - eapply extends_trans; [apply tick_extends |].
    apply request_body_extends.
    exists (self s). split; [done | by right].
Qed.

Lemma backoff_extends (P : Event -> Prop) i s :
  (forall d, P (EvSleep d)) -> extends P s (snd (backoff i s)).
Proof.
  intros HP. destruct s as [c w]. repeat split; cbn.
  eexists [_]. split; [reflexivity |]. constructor; [apply HP | constructor].
Qed.

Lemma retry_loop_unfold {A} (func : M A) e i n s :
  retry_loop func e i (S n) s =
  match func (snd (backoff i s)) with
  | (Raise (HTTPError407 _), s') => retry_loop func e (i + 1) n s'
  | out => out
  end.
Proof. reflexivity. Qed.

Section Dispatcher.
Context {A : Type}.
Variable c : Client.
Variable P : Event -> Prop.
Variable func : M A.
Hypothesis P_login :
  forall c', config c' = config c -> P (EvPost (login_request c')).
Hypothesis P_sleep : forall d, P (EvSleep d).
Hypothesis P_func :
  forall s, config (self s) = config c -> extends P s (snd (func s)).

Lemma retry_loop_extends n : forall e i s,
  config (self s) = config c ->
  extends P s (snd (retry_loop func e i n s)).
Proof using P_sleep P_func.
  induction n as [|n IH]; intros e i s Hc; [apply extends_refl |].
  rewrite retry_loop_unfold.
  pose proof (backoff_extends P i s P_sleep) as Hb.
  assert (Hc1 : config (self (snd (backoff i s))) = config c).
  { destruct Hb as (-> & _). exact Hc. }
  pose proof (P_func _ Hc1) as Hf.
  assert (Hstep : extends P s (snd (func (snd (backoff i s))))).
  { eapply extends_trans; eauto. }
  destruct (func (snd (backoff i s))) as [[a|e'] s'] eqn:E; cbn in *;
    [exact Hstep |].
  destruct e'; try exact Hstep.
  eapply extends_trans; [exact Hstep |].
  apply IH. destruct Hf as (-> & _). exact Hc1.
Qed.

Lemma throttle_retry_extends_first s :
  config (self s) = config c ->
  extends P (snd (func s)) (snd (throttle_retry func s)).
Proof using P_login P_sleep P_func.
  intros Hc. unfold throttle_retry.
  pose proof (P_func _ Hc) as Hf.
  assert (Hc1 : config (self (snd (func s))) = config c).
  { destruct Hf as (-> & _). exact Hc. }
  assert (Hrelogin : forall s1, config (self s1) = config c ->
            extends P s1 (snd ((login ;; func) s1))).
  { intros s1 Hs1. unfold bind.
    pose proof (login_extends P s1 (P_login _ Hs1)) as Hl.
    destruct (login s1) as [[[]|e] s2]; cbn in *; [| exact Hl].
    eapply extends_trans; [exact Hl |].
    apply P_func. destruct Hl as (-> & _). exact Hs1. }
  destruct (func s) as [[a|e] s1]; cbn in *; [apply extends_refl |].
  destruct e; try apply extends_refl; try (apply Hrelogin; exact Hc1).
  apply retry_loop_extends. exact Hc1.
Qed.

Lemma throttle_retry_extends s :
  config (self s) = config c ->
  extends P s (snd (throttle_retry func s)).
Proof using P_login P_sleep P_func.
  intros Hc. eapply extends_trans; [apply P_func; exact Hc |].
  by apply throttle_retry_extends_first.
Qed.
End Dispatcher.

Lemma call_event_dispatch c f d e : call_event c f d e -> dispatch_event c f d e.
Proof. intros H. by left. Qed.

Lemma request_extends f d s :
  extends (dispatch_event (self s) f d) s (snd (_request f d s)).
Proof.
  unfold _request. fold (call f d).
  apply (throttle_retry_extends (self s)); try done.
  - intros c' Hc'. left. exists c'. split; [done | by left].
  - intros d'. right. eauto.
  - intros s' Hs'. eapply extends_mono; [apply call_event_dispatch |].
    by apply call_extends.
Qed.

(** ** The first request of a dispatched operation *)

Lemma extends_prefix P s1 s2 t e r :
  trace (world s1) = t ++ e :: r ->
  extends P s1 s2 ->
  exists rest, trace (world s2) = t ++ e :: rest.
Proof.
  intros Ht (_ & _ & _ & _ & new & -> & _). rewrite Ht.
  exists (r ++ new). by rewrite <- app_assoc.
Qed.

Lemma call_first_event f d s :
  exists rest,
    trace (world (snd (call f d s))) =
    trace (world s) ++
      EvPost (if expired s
              then login_request (self s)
              else op_request (self s) f d) :: rest.
Proof.
  unfold call. rewrite authenticated_unfold.
  destruct (expired _).
  - rewrite login_unfold.
    destruct (next_reply _ _) as [|r]; [by exists [] |].
    destruct (_validate_response r); [| by exists []].
    eapply extends_prefix;
      [| apply (request_body_extends any_event); exact I].
    reflexivity.
  - rewrite request_body_unfold.
    destruct (next_reply _ _) as [|r]; [by exists [] |]. cbn.
    destruct (_validate_response r); [| by exists []].
    destruct (resp_json r); by exists [].
Qed.

Lemma request_first_event f d s :
  exists rest,
    trace (world (snd (_request f d s))) =
    trace (world s) ++
      EvPost (if expired s
              then login_request (self s)
              else op_request (self s) f d) :: rest.
Proof.
  destruct (call_first_event f d s) as [r Hr].
  eapply extends_prefix; [exact Hr |].
  unfold _request. fold (call f d).
  apply (throttle_retry_extends_first (self s) any_event); try done.
  intros s' _. eapply extends_mono; [| by apply (call_extends (self s'))].
  done.
Qed.

Lemma SFcompare_Lt_Gt x y :
  SpecFloat.SFcompare x y = Some Lt -> SpecFloat.SFcompare y x = Some Gt.
Proof.
  destruct x as [sx|sx| |sx mx ex], y as [sy|sy| |sy my ey]; cbn;
    try (destruct sx); try (destruct sy); try discriminate; try reflexivity.
  all: rewrite (Z.compare_antisym ey ex);
    destruct (ey ?= ex) eqn:E; cbn; try discriminate; try reflexivity.
  all: change (PosDef.Pos.compare_cont Eq ?a ?b) with (Pos.compare a b);
    rewrite (Pos.compare_antisym my mx); destruct (my ?= mx)%positive; cbn;
    try discriminate; reflexivity.
Qed.

(** A float strictly above another is not at or below it. *)
Lemma ltb_leb_false x y :
  PrimFloat.ltb y x = true -> PrimFloat.leb x y = false.
Proof.
  rewrite FloatAxioms.ltb_spec, FloatAxioms.leb_spec.
  unfold SpecFloat.SFltb, SpecFloat.SFleb.
  destruct (SpecFloat.SFcompare (FloatOps.Prim2SF y) (FloatOps.Prim2SF x))
    as [[]|] eqn:E; try discriminate.
  intros _. rewrite (SFcompare_Lt_Gt _ _ E). reflexivity.
Qed.

(** C4: on every dispatched call the stored expiry time is compared with the
    clock as read at that call.  When the expiry time is at or before the
    reading, the first request sent is the POST of [login], so [login] runs
    before the operation's POST; otherwise, and so whenever the expiry time
    is strictly later than the reading, the first request sent is the
    operation's own POST, with no login before it. *)
Theorem C4_expired_token_logs_in_first :
  forall (function : string) (data : option json) (s : State),
    (exists rest,
       trace (world (snd (_request function data s))) =
       trace (world s) ++
         EvPost (if expired s
                 then login_request (self s)
                 else op_request (self s) function data) :: rest) /\
    expired s = PrimFloat.leb (token_expiration_time (self s)) (now s) /\
    (PrimFloat.ltb (now s) (token_expiration_time (self s)) = true ->
     exists rest,
       trace (world (snd (_request function data s))) =
       trace (world s) ++
         EvPost (op_request (self s) function data) :: rest).
Proof.
  intros function data s.
  split; [apply request_first_event |]. split; [reflexivity |].
  intros Hlater. destruct (request_first_event function data s) as [rest Hr].
  exists rest. rewrite Hr. unfold expired. by rewrite (ltb_leb_false _ _ Hlater).
Qed.

(** C10: a fresh client has expiry time 0; when the clock shows a time at or
    after the epoch, the first operation dispatched by a fresh client starts
    with the POST of [login], before any POST of the operation. *)
Theorem C10_fresh_client_logs_in_first :
  forall (user system : string) (retries : Z) (url : string) (w : World)
         (function : string) (data : option json),
    let c := Client_init user system retries url in
    PrimFloat.leb 0%float (clock w (clock_reads w)) = true ->
    token_expiration_time c = 0%float /\
    exists rest,
      trace (world (snd (_request function data (mkState c w)))) =
      trace w ++ EvPost (login_request c) :: rest.
Proof.
  intros user system retries url w function data c Hnow.
  split; [reflexivity |].
  destruct (request_first_event function data (mkState c w)) as [rest Hr].
  exists rest. rewrite Hr.
  unfold expired, now. cbn [self world token_expiration_time c Client_init].
  by rewrite Hnow.
Qed.

(** ** The throttle loop *)

Lemma backoff_sleeps i s :
  exists j, jitter_ok j /\
    sleeps (trace (world (snd (backoff i s)))) =
    sleeps (trace (world s)) ++ [i * 20 + j].
Proof.
  exists (3 + rng (world s) (rng_draws (world s)) mod (10 - 3 + 1)). split.
  - unfold jitter_ok.
    pose proof (Z.mod_pos_bound (rng (world s) (rng_draws (world s)))
                  (10 - 3 + 1)).
    lia.
  - cbn. by rewrite sleeps_app.
Qed.

Lemma backoff_delays_lower js : forall i,
  Forall jitter_ok js -> Forall (fun d => i * 20 + 3 <= d) (backoff_delays i js).
Proof.
  induction js as [|j js IH]; intros i Hjs; cbn; [constructor |].
  inversion Hjs as [|? ? Hj Hjs']; subst.
  constructor; [unfold jitter_ok in Hj; lia |].
  eapply Forall_impl; [| apply IH; exact Hjs'].
  cbn. intros d Hd. lia.
Qed.

Lemma backoff_delays_sorted js : forall i,
  Forall jitter_ok js -> StronglySorted Z.le (backoff_delays i js).
Proof.
  induction js as [|j js IH]; intros i Hjs; cbn; [constructor |].
  inversion Hjs as [|? ? Hj Hjs']; subst.
  constructor; [by apply IH |].
  eapply Forall_impl; [| apply (backoff_delays_lower js (i + 1) Hjs')].
  cbn. intros d Hd. unfold jitter_ok in Hj. lia.
Qed.

Lemma retry_loop_step {A} (func : M A) e i n s :
  retry_loop func e i (S n) s =
  let out := func (snd (backoff i s)) in
  if is_throttled (fst out) then retry_loop func e (i + 1) n (snd out) else out.
Proof.
  rewrite retry_loop_unfold. cbn zeta.
  destruct (func (snd (backoff i s))) as [[a|[]] s']; reflexivity.
Qed.

Section Throttle.
Context {A : Type}.
Variable func : M A.
Hypothesis func_no_sleep :
  forall s, sleeps (trace (world (snd (func s)))) = sleeps (trace (world s)).

Lemma retry_loop_spec n : forall e i s,
  n <> O ->
  let s' := snd (backoff i s) in
  exists (k : nat) (js : list Z),
    (k < n)%nat /\ length js = S k /\ Forall jitter_ok js /\
    (forall m, (m < k)%nat ->
       is_throttled (fst (attempt func (i + 1) s' m)) = true) /\
    sleeps (trace (world (snd (retry_loop func e i n s)))) =
      sleeps (trace (world s)) ++ backoff_delays i js /\
    (if is_throttled (fst (attempt func (i + 1) s' k))
     then S k = n /\
          retry_loop func e i n s =
          (Raise e, snd (attempt func (i + 1) s' k))
     else retry_loop func e i n s = attempt func (i + 1) s' k).
Proof using func_no_sleep.
  induction n as [|n IH]; intros e i s Hn s'; [done |].
  destruct (backoff_sleeps i s) as (j & Hj & Hsl). fold s' in Hsl.
  rewrite retry_loop_step. fold s'. cbn zeta. clearbody s'.
  destruct (is_throttled (fst (func s'))) eqn:Hthr.
  - destruct n as [|n'].
    + exists O, [j]. cbn. rewrite Hthr.
      repeat split; try done; try lia.
      * constructor; [exact Hj | constructor].
      * by rewrite func_no_sleep, Hsl.
    + destruct (IH e (i + 1) (snd (func s')) ltac:(done))
        as (k & js & Hk & Hlen & Hjs & Hatt & Hsleeps & Hout).
      exists (S k), (j :: js). cbn [attempt backoff_delays length].
      repeat split.
      * lia.
      * by rewrite Hlen.
      * by constructor.
      * intros [|m] Hm; cbn [attempt]; [exact Hthr | apply Hatt; lia].
      * rewrite Hsleeps, func_no_sleep, Hsl. by rewrite <- app_assoc.
      * destruct (is_throttled (fst (attempt func _ _ k))); [| exact Hout].
        destruct Hout as [-> ->]. done.
  - exists O, [j]. cbn. rewrite Hthr.
    repeat split; try done; try lia.
    + constructor; [exact Hj | constructor].
    + by rewrite func_no_sleep, Hsl.
Qed.

Lemma throttle_retry_spec s body s1 :
  func s = (Raise (HTTPError407 body), s1) ->
  exists (k : nat) (js : list Z),
    (k <= Z.to_nat (max_retry (self s1)))%nat /\
    length js = k /\ Forall jitter_ok js /\
    (forall m, (m < k)%nat -> is_throttled (fst (attempt func 1 s m)) = true) /\
    sleeps (trace (world (snd (throttle_retry func s)))) =
      sleeps (trace (world s)) ++ backoff_delays 1 js /\
    (if is_throttled (fst (attempt func 1 s k))
     then k = Z.to_nat (max_retry (self s1)) /\
          throttle_retry func s =
          (Raise (HTTPError407 body), snd (attempt func 1 s k))
     else throttle_retry func s = attempt func 1 s k).
Proof using func_no_sleep.
  intros Hfirst.
  assert (Hs1 : sleeps (trace (world s1)) = sleeps (trace (world s))).
  { rewrite <- (func_no_sleep s). by rewrite Hfirst. }
  unfold throttle_retry. rewrite Hfirst.
  destruct (Z.to_nat (max_retry (self s1))) as [|n] eqn:Hn.
  - exists O, []. cbn. rewrite Hfirst. cbn.
    repeat split; try done; try lia.
    by rewrite Hs1, app_nil_r.
  - destruct (retry_loop_spec (S n) (HTTPError407 body) 1 s1 ltac:(done))
      as (k & js & Hk & Hlen & Hjs & Hatt & Hsleeps & Hout).
    exists (S k), js. cbn [attempt]. rewrite Hfirst. cbn [snd].
    repeat split; try done.
    + intros [|m] Hm; cbn [attempt]; [by rewrite Hfirst |].
      rewrite Hfirst. apply Hatt. lia.
    + by rewrite Hsleeps, Hs1.
Qed.
End Throttle.

Lemma login_trace s :
  trace (world (snd (login s))) =
  trace (world s) ++ [EvPost (login_request (self s))].
Proof.
  rewrite login_unfold.
  destruct (next_reply _ _) as [|r]; [reflexivity |].
  destruct (_validate_response r); reflexivity.
Qed.

Lemma call_no_sleep f d s :
  sleeps (trace (world (snd (call f d s)))) = sleeps (trace (world s)).
Proof.
  apply (extends_call_sleeps (self s) f d). by apply call_extends.
Qed.

Lemma call_config f d s : config (self (snd (call f d s))) = config (self s).
Proof. by destruct (call_extends (self s) f d s eq_refl) as (-> & _). Qed.

Lemma config_max_retry c c' : config c = config c' -> max_retry c = max_retry c'.
Proof. unfold config. congruence. Qed.

Lemma request_eq f d s : _request f d s = throttle_retry (call f d) s.
Proof. reflexivity. Qed.

Lemma request_cases f d s :
  _request f d s =
  match call f d s with
  | (Ok a, s1) => (Ok a, s1)
  | (Raise e, s1) =>
      if is_throttled (@Raise json e)
      then retry_loop (call f d) e 1 (Z.to_nat (max_retry (self s1))) s1
      else if is_session_invalid e then (login ;; call f d) s1
      else (Raise e, s1)
  end.
Proof.
  rewrite request_eq. unfold throttle_retry.
  destruct (call f d s) as [[a|e] s1]; [done |]. by destruct e.
Qed.

Lemma n_posted_trace s s' new :
  trace (world s') = trace (world s) ++ new ->
  n_posted s' = (n_posted s + length (posted new))%nat.
Proof.
  intros H. unfold n_posted. by rewrite H, posted_app, length_app.
Qed.

Lemma request_body_trace f d s :
  trace (world (snd (_request_body f d s))) =
  trace (world s) ++ [EvPost (op_request (self s) f d)].
Proof.
  rewrite request_body_unfold.
  destruct (next_reply _ _) as [|r]; [reflexivity |]. cbn zeta.
  destruct (_validate_response r); [| reflexivity].
  destruct (resp_json r); reflexivity.
Qed.

Lemma login_n_posted s : n_posted (snd (login s)) = S (n_posted s).
Proof. rewrite (n_posted_trace _ _ _ (login_trace s)). cbn. lia. Qed.

Lemma call_n_posted f d s :
  (n_posted s + 1 <= n_posted (snd (call f d s)) <= n_posted s + 2)%nat.
Proof.
  unfold call. rewrite authenticated_unfold.
  assert (Htick : n_posted (tick s) = n_posted s) by done.
  destruct (expired _).
  - pose proof (login_n_posted (tick s)) as Hl.
    destruct (login (tick s)) as [[[]|e] s1]; cbn [snd] in *; [| lia].
    rewrite (n_posted_trace _ _ _ (request_body_trace f d s1)). cbn. lia.
  - rewrite (n_posted_trace _ _ _ (request_body_trace f d (tick s))), Htick.
    cbn [posted length]. lia.
Qed.

Lemma attempt_n_posted f d k : forall i s,
  (n_posted s + (k + 1) <= n_posted (snd (attempt (call f d) i s k))
   <= n_posted s + 2 * (k + 1))%nat.
Proof.
  induction k as [|k IH]; intros i s; cbn [attempt].
  - pose proof (call_n_posted f d s). lia.
  - pose proof (call_n_posted f d s) as Hc.
    assert (Hb : n_posted (snd (backoff i (snd (call f d s))))
                 = n_posted (snd (call f d s))).
    { unfold n_posted. cbn. rewrite posted_app. cbn. by rewrite app_nil_r. }
    specialize (IH (i + 1) (snd (backoff i (snd (call f d s))))). lia.
Qed.

(** C1: when the wrapped call of a dispatched operation raises the throttling
    error, the dispatcher makes [retries] further attempts, at most
    [max_retry] of them (so at most [max_retry + 1] attempts in all).  Before
    retry [i] it sleeps [i * 20 + jitter] seconds with the jitter in [3..10];
    these are all the sleeps, and the delays never decrease.  Every attempt
    before the last one was throttled, and the operation ends in the state
    the last attempt left, so no further attempt was made: between
    [retries + 1] and [2 * (retries + 1)] requests were sent, one or two for
    each attempt.  When the last attempt is throttled too the budget is used
    up and the error raised is the one of the first attempt, otherwise the
    outcome of the last attempt is the outcome of the operation. *)
Theorem C1_throttled_call_retried_with_backoff :
  forall (function : string) (data : option json) (s : State)
         (body : json) (s1 : State),
    call function data s = (Raise (HTTPError407 body), s1) ->
    exists (retries : nat) (jitters : list Z),
      (retries <= Z.to_nat (max_retry (self s)))%nat /\
      (0 <= max_retry (self s) ->
       Z.of_nat retries + 1 <= max_retry (self s) + 1) /\
      length jitters = retries /\
      Forall jitter_ok jitters /\
      sleeps (trace (world (snd (_request function data s)))) =
        sleeps (trace (world s)) ++ backoff_delays 1 jitters /\
      StronglySorted Z.le (backoff_delays 1 jitters) /\
      (forall m, (m < retries)%nat ->
         is_throttled (fst (attempt (call function data) 1 s m)) = true) /\
      snd (_request function data s) =
        snd (attempt (call function data) 1 s retries) /\
      (n_posted s + (retries + 1)
       <= n_posted (snd (_request function data s))
       <= n_posted s + 2 * (retries + 1))%nat /\
      (if is_throttled (fst (attempt (call function data) 1 s retries))
       then retries = Z.to_nat (max_retry (self s)) /\
            _request function data s =
            (Raise (HTTPError407 body),
             snd (attempt (call function data) 1 s retries))
       else _request function data s =
            attempt (call function data) 1 s retries).
Proof.
  intros function data s body s1 Hfirst.
  destruct (throttle_retry_spec (call function data)
              (call_no_sleep function data) s body s1 Hfirst)
    as (k & js & Hk & Hlen & Hjs & Hatt & Hsleeps & Hout).
  assert (Hmr : max_retry (self s1) = max_retry (self s)).
  { apply config_max_retry.
    rewrite <- (call_config function data s). by rewrite Hfirst. }
  rewrite Hmr in Hk, Hout.
  assert (Hstate : snd (_request function data s) =
                   snd (attempt (call function data) 1 s k)).
  { rewrite request_eq.
    destruct (is_throttled (fst (attempt (call function data) 1 s k)));
      [destruct Hout as [_ ->] | rewrite Hout]; reflexivity. }
  exists k, js. rewrite <- request_eq in Hsleeps, Hout.
  split; [exact Hk |]. split; [lia |]. split; [exact Hlen |].
  split; [exact Hjs |]. split; [exact Hsleeps |].
  split; [by apply backoff_delays_sorted |].
  split; [exact Hatt |]. split; [exact Hstate |].
  split; [rewrite Hstate; apply attempt_n_posted |].
  exact Hout.
Qed.

(** C2: when the wrapped call of a dispatched operation raises a
    session-invalid error, the dispatcher calls [login] once and, when it
    returns, calls the operation once more; the outcome of that one retry,
    a value or any error, is the outcome of the operation, with no sleep and
    no further handling.  The first request after the failed attempt is the
    POST of [login].  The failure codes 305, 306 and 307 all raise such an
    error, and the same one. *)
Theorem C2_session_invalid_relogin_single_retry :
  forall (function : string) (data : option json) (s : State)
         (e : exn) (s1 : State),
    call function data s = (Raise e, s1) ->
    is_session_invalid e = true ->
    (forall s2, login s1 = (Ok tt, s2) ->
       _request function data s = call function data s2) /\
    (forall e' s2, login s1 = (Raise e', s2) ->
       _request function data s = (Raise e', s2)) /\
    sleeps (trace (world (snd (_request function data s)))) =
      sleeps (trace (world s)) /\
    (exists rest,
       trace (world (snd (_request function data s))) =
       trace (world s1) ++ EvPost (login_request (self s1)) :: rest) /\
    (forall (code : Z) (r : Response) (m : gmap string json),
       code = 305 \/ code = 306 \/ code = 307 ->
       raise_for_status r = Ok tt ->
       resp_json r = Some (JObj m) ->
       truthy (default (JBool false) (m !! "success")) = false ->
       m !! "failCode" = Some (JInt code) ->
       _validate_response r = Raise (HTTPError306 (JObj m)) /\
       is_session_invalid (HTTPError306 (JObj m)) = true).
Proof.
  intros function data s e s1 Hfirst He.
  assert (Hreq : _request function data s = (login ;; call function data) s1).
  { unfold _request. fold (call function data). unfold throttle_retry.
    rewrite Hfirst. destruct e; try discriminate; reflexivity. }
  assert (Hs1 : sleeps (trace (world s1)) = sleeps (trace (world s))).
  { rewrite <- (call_no_sleep function data s). by rewrite Hfirst. }
  pose proof (login_trace s1) as Hlt.
  rewrite Hreq. unfold bind.
  destruct (login s1) as [[[]|e'] s2] eqn:Hlogin; cbn [snd] in Hlt.
  - split; [intros s2' [= <-]; reflexivity |].
    split; [intros e' s2' [=] |].
    split.
    + rewrite call_no_sleep, Hlt, sleeps_app. cbn. by rewrite app_nil_r.
    + split.
      * eapply extends_prefix; [exact Hlt |].
        apply (call_extends (self s2)). reflexivity.
      * intros code r m Hcode Hst Hjs Hsucc Hfc.
        unfold _validate_response. rewrite Hst, Hjs. cbn zeta.
        rewrite Hsucc, Hfc. cbn.
        destruct Hcode as [-> | [-> | ->]]; done.
  - split; [intros s2' [=] |].
    split; [intros e'' s2' [= <- <-]; reflexivity |].
    split.
    + cbn [snd]. rewrite Hlt, sleeps_app. cbn. by rewrite app_nil_r.
    + split.
      * exists []. exact Hlt.
      * intros code r m Hcode Hst Hjs Hsucc Hfc.
        unfold _validate_response. rewrite Hst, Hjs. cbn zeta.
        rewrite Hsucc, Hfc. cbn.
        destruct Hcode as [-> | [-> | ->]]; done.
Qed.

(** ** Response validation *)

Lemma py_eq_int_other v n :
  ~ is_number v n -> n <> 0 -> n <> 1 -> py_eq_int v n = false.
Proof.
  intros Hv H0 H1.
  destruct v as [[| b | z | f | | |]|]; cbn [py_eq_int]; try done.
  - destruct b; cbn [Z.b2z]; apply Z.eqb_neq; lia.
  - apply Z.eqb_neq. intros ->. apply Hv. by left.
  - destruct (PrimFloat.eqb f (float_of_Z n)) eqn:E; [| done].
    destruct Hv. right. by exists f.
Qed.

Lemma validate_generic r m :
  raise_for_status r = Ok tt ->
  resp_json r = Some (JObj m) ->
  truthy (default (JBool false) (m !! "success")) = false ->
  (forall code, In code [305; 306; 307; 407] ->
     ~ is_number (m !! "failCode") code) ->
  _validate_response r = Raise (HTTPError (JObj m)).
Proof.
  intros Hst Hjs Hsucc Hcode.
  unfold _validate_response. rewrite Hst, Hjs. cbn zeta. rewrite Hsucc. cbn.
  rewrite !py_eq_int_other; try done; apply Hcode; cbn; tauto.
Qed.

Lemma validate_success r m :
  raise_for_status r = Ok tt ->
  resp_json r = Some (JObj m) ->
  m !! "success" = Some (JBool true) ->
  _validate_response r = Ok true.
Proof.
  intros Hst Hjs Hsucc.
  unfold _validate_response. by rewrite Hst, Hjs, Hsucc.
Qed.

(** C3: the code evaluated on the failure envelopes with the codes 407, 305,
    306 and 307 and on another code.  407 raises [HTTPError407] and another
    code the generic [HTTPError], but 305, 306 and 307 all raise
    [HTTPError306]: 305 and 307 do not raise [HTTPError305] and
    [HTTPError307]. *)
Theorem C3_codes_305_306_307_all_raise_HTTPError306 :
  _validate_response (ok_response (failure_envelope 407) ∅)
    = Raise (HTTPError407 (failure_envelope 407)) /\
  _validate_response (ok_response (failure_envelope 305) ∅)
    = Raise (HTTPError306 (failure_envelope 305)) /\
  _validate_response (ok_response (failure_envelope 306) ∅)
    = Raise (HTTPError306 (failure_envelope 306)) /\
  _validate_response (ok_response (failure_envelope 307) ∅)
    = Raise (HTTPError306 (failure_envelope 307)) /\
  _validate_response (ok_response (failure_envelope 401) ∅)
    = Raise (HTTPError (failure_envelope 401)).
Proof. repeat split; vm_compute; reflexivity. Qed.

(** ** A call with a valid token *)

Lemma call_unexpired f d s :
  expired s = false ->
  call f d s = _request_body f d (tick s).
Proof.
  intros Hnow. unfold call. rewrite authenticated_unfold.
  by rewrite Hnow.
Qed.

Lemma request_not_handled f d s r s1 :
  call f d s = (r, s1) ->
  is_throttled r = false ->
  (forall e, r = Raise e -> is_session_invalid e = false) ->
  _request f d s = (r, s1).
Proof.
  intros Hcall Hthr Hsi. unfold _request. fold (call f d).
  unfold throttle_retry. rewrite Hcall.
  destruct r as [a|e]; [done |].
  specialize (Hsi e eq_refl). destruct e; done.
Qed.

(** C6: a failure envelope without a code, or with a code other than 305,
    306, 307 and 407, is classified as the generic error, which carries the
    decoded body.  When the wrapped call raises the generic error, the
    dispatcher ends with that error in the state the call left: nothing else
    happens.  With a valid token the whole operation is one POST, of the
    operation itself, and neither a sleep nor a login. *)
Theorem C6_other_failure_raises_generic_error_at_once :
  (forall (r : Response) (m : gmap string json),
     raise_for_status r = Ok tt ->
     resp_json r = Some (JObj m) ->
     truthy (default (JBool false) (m !! "success")) = false ->
     (forall code, In code [305; 306; 307; 407] ->
        ~ is_number (m !! "failCode") code) ->
     _validate_response r = Raise (HTTPError (JObj m))) /\
  (forall (function : string) (data : option json) (s : State)
          (body : json) (s1 : State),
     call function data s = (Raise (HTTPError body), s1) ->
     _request function data s = (Raise (HTTPError body), s1)) /\
  (forall (function : string) (data : option json) (s : State)
          (r : Response) (m : gmap string json),
     expired s = false ->
     next_reply s (op_request (self s) function data) = Replied r ->
     raise_for_status r = Ok tt ->
     resp_json r = Some (JObj m) ->
     truthy (default (JBool false) (m !! "success")) = false ->
     (forall code, In code [305; 306; 307; 407] ->
        ~ is_number (m !! "failCode") code) ->
     fst (_request function data s) = Raise (HTTPError (JObj m)) /\
     trace (world (snd (_request function data s))) =
       trace (world s) ++ [EvPost (op_request (self s) function data)]).
Proof.
  split; [exact validate_generic |].
  split.
  - intros function data s body s1 Hcall.
    apply request_not_handled; [exact Hcall | reflexivity |].
    intros e [= <-]. reflexivity.
  - intros function data s r m Hnow Hreply Hst Hjs Hsucc Hcode.
    pose proof (validate_generic r m Hst Hjs Hsucc Hcode) as Hval.
    pose proof (call_unexpired function data s Hnow) as Hcall.
    rewrite request_body_unfold in Hcall.
    change (next_reply (tick s) (op_request (self (tick s)) function data))
      with (next_reply s (op_request (self s) function data)) in Hcall.
    rewrite Hreply in Hcall. cbn zeta in Hcall. rewrite Hval in Hcall.
    rewrite (request_not_handled _ _ _ _ _ Hcall); try done.
    intros e [= <-]. done.
Qed.

Lemma set_session_same c :
  set_session c (mkSession (headers (session c)) (cookies (session c))) = c.
Proof. by destruct c as [u sc mr bu [h ck] t]. Qed.

Lemma store_cookies_lookup r jar name :
  store_cookies r jar !! name =
  match set_cookie r !! name with
  | Some directive => directive
  | None => jar !! name
  end.
Proof.
  unfold store_cookies. rewrite lookup_omap, lookup_union, lookup_fmap.
  destruct (set_cookie r !! name) as [[v|]|]; destruct (jar !! name); done.
Qed.

Lemma store_cookies_no_header r jar :
  set_cookie r = ∅ -> store_cookies r jar = jar.
Proof.
  intros H. apply map_eq. intros name.
  by rewrite store_cookies_lookup, H, lookup_empty.
Qed.

Lemma store_cookies_empty_jar r : store_cookies r ∅ = resp_cookies r ∪ ∅.
Proof.
  apply map_eq. intros name.
  rewrite store_cookies_lookup, (right_id_L ∅ (∪)). unfold resp_cookies.
  rewrite lookup_omap, lookup_empty.
  by destruct (set_cookie r !! name) as [[v|]|].
Qed.

(** C7, as the code has it: with a valid token, a response with a good HTTP
    status whose envelope has [success: true] makes the operation return the
    decoded body as it is, after exactly one POST, the operation's own, with
    no login and no sleep.  The token header and the expiry time stay as they
    were; the cookie jar changes as the [Set-Cookie] headers of the response
    say, a cookie they set being stored and a cookie they expire dropped,
    and the client is unchanged when the response has no such header. *)
Theorem C7_success_returns_payload_without_side_effects :
  forall (function : string) (data : option json) (s : State)
         (r : Response) (m : gmap string json),
    expired s = false ->
    next_reply s (op_request (self s) function data) = Replied r ->
    raise_for_status r = Ok tt ->
    resp_json r = Some (JObj m) ->
    m !! "success" = Some (JBool true) ->
    let s' := snd (_request function data s) in
    fst (_request function data s) = Ok (JObj m) /\
    trace (world s') =
      trace (world s) ++ [EvPost (op_request (self s) function data)] /\
    headers (session (self s')) = headers (session (self s)) /\
    token_expiration_time (self s') = token_expiration_time (self s) /\
    config (self s') = config (self s) /\
    (forall name,
       cookies (session (self s')) !! name =
       match set_cookie r !! name with
       | Some directive => directive
       | None => cookies (session (self s)) !! name
       end) /\
    (set_cookie r = ∅ -> self s' = self s).
Proof.
  intros function data s r m Hnow Hreply Hst Hjs Hsucc s'.
  pose proof (validate_success r m Hst Hjs Hsucc) as Hval.
  pose proof (call_unexpired function data s Hnow) as Hcall.
  rewrite request_body_unfold in Hcall.
  change (next_reply (tick s) (op_request (self (tick s)) function data))
    with (next_reply s (op_request (self s) function data)) in Hcall.
  rewrite Hreply in Hcall. cbn zeta in Hcall. rewrite Hval, Hjs in Hcall.
  assert (Hreq := request_not_handled _ _ _ _ _ Hcall eq_refl
                    ltac:(intros e [=])).
  subst s'. rewrite Hreq. cbn [fst snd].
  split; [reflexivity |]. split; [reflexivity |]. split; [reflexivity |].
  split; [reflexivity |]. split; [reflexivity |].
  split.
  - intros name. apply store_cookies_lookup.
  - intros Hnone. cbn. rewrite (store_cookies_no_header r _ Hnone).
    apply set_session_same.
Qed.

(** C7 as stated does not hold: a client with a valid token and an empty
    cookie jar receives a successful envelope in a response that sets a
    cookie; the payload is returned and the cookie is in the jar afterwards. *)
Lemma C7_counterexample_response_cookie_is_stored :
  let c := set_token_expiration_time fresh_client 1200%float in
  let payload := success_envelope (JList []) in
  let srv := scripted [ok_response payload {["JSESSIONID" := "node1"]}] in
  let s := mkState c (world_at 60%float srv) in
  let s' := snd (_request "getStationList" None s) in
  expired s = false /\
  fst (_request "getStationList" None s) = Ok payload /\
  cookies (session (self s)) !! "JSESSIONID" = None /\
  cookies (session (self s')) !! "JSESSIONID" = Some "node1" /\
  cookies (session (self s')) <> cookies (session (self s)).
Proof.
  cbv zeta.
  split; [vm_compute; reflexivity |].
  split; [vm_compute; reflexivity |].
  split; [vm_compute; reflexivity |].
  assert (H : cookies (session (self (snd (_request "getStationList" None
            (mkState (set_token_expiration_time fresh_client 1200%float)
               (world_at 60%float
                  (scripted [ok_response (success_envelope (JList []))
                               {["JSESSIONID" := "node1"]}])))))))
          !! "JSESSIONID" = Some "node1") by (vm_compute; reflexivity).
  split; [exact H |].
  intros Heq. rewrite Heq in H. vm_compute in H. discriminate.
Qed.

(** ** Login *)

Lemma login_success s r :
  next_reply s (login_request (self s)) = Replied r ->
  _validate_response r = Ok true ->
  login s = (Ok tt, logged_in s r).
Proof. intros Hr Hv. by rewrite login_unfold, Hr, Hv. Qed.

Lemma login_failure_keeps_token s e :
  fst (login s) = Raise e ->
  token_expiration_time (self (snd (login s))) = token_expiration_time (self s)
  /\ headers (session (self (snd (login s)))) = headers (session (self s)).
Proof.
  rewrite login_unfold.
  destruct (next_reply _ _) as [|r]; [done |].
  destruct (_validate_response r); done.
Qed.

Lemma first_request_header f d s tok :
  headers (session (self s)) !! "XSRF-TOKEN" = Some (Some tok) ->
  exists rq rest,
    trace (world (snd (_request f d s))) = trace (world s) ++ EvPost rq :: rest
    /\ req_headers rq !! "XSRF-TOKEN" = Some tok
    /\ (expired s = false ->
        rq = op_request (self s) f d).
Proof.
  intros Hh. destruct (request_first_event f d s) as [rest Hrest].
  eexists _, rest. split; [exact Hrest |]. split.
  - destruct (expired _); cbn; by rewrite lookup_omap, Hh.
  - intros Hnow. by rewrite Hnow.
Qed.

(** *** The session headers stay in use until the next login *)

Lemma headers_kept_refl s : headers_kept s s.
Proof.
  split; [done |]. exists [], []. rewrite !app_nil_r.
  split; [done |]. split; [constructor |]. by left.
Qed.

Lemma headers_kept_trans s1 s2 s3 :
  headers_kept s1 s2 -> headers_kept s2 s3 -> headers_kept s1 s3.
Proof.
  intros (Hc1 & pre1 & post1 & Ht1 & Hp1 & H1) (Hc2 & pre2 & post2 & Ht2 & Hp2 & H2).
  split; [congruence |].
  destruct H1 as [[-> Hh] | (rq & rest & -> & Hu & Hj & Hr)].
  - exists (pre1 ++ pre2), post2. rewrite Hh in Hp2, H2.
    split; [rewrite Ht2, Ht1, app_nil_r; by rewrite <- !app_assoc |].
    split; [by apply Forall_app |].
    destruct H2 as [[-> Hh2] | (rq & rest & -> & Hu & Hj & Hr)].
    + left. split; [done | congruence].
    + right. exists rq, rest. unfold login_url, login_body in *.
      unfold config in Hc1. injection Hc1 as Hun Hsc _ Hbu.
      rewrite Hun, Hsc, Hbu in *. done.
  - exists pre1, (EvPost rq :: rest ++ pre2 ++ post2).
    split; [rewrite Ht2, Ht1; by rewrite <- !app_assoc |].
    split; [done |]. right. by exists rq, (rest ++ pre2 ++ post2).
Qed.

Lemma headers_kept_tick s : headers_kept s (tick s).
Proof.
  split; [done |]. exists [], []. cbn. rewrite !app_nil_r.
  split; [done |]. split; [constructor |]. by left.
Qed.

Lemma headers_kept_after_post s rq jar :
  req_headers rq = omap id (headers (session (self s))) ->
  headers_kept s (after_post s rq jar).
Proof.
  intros Hrq. split; [done |]. exists [EvPost rq], []. cbn.
  split; [done |]. split; [by repeat constructor |]. by left.
Qed.

Lemma headers_kept_login s : headers_kept s (snd (login s)).
Proof.
  split.
  { by destruct (login_extends any_event s I) as (-> & _). }
  exists [], [EvPost (login_request (self s))].
  split; [apply login_trace |]. split; [constructor |].
  right. by exists (login_request (self s)), [].
Qed.

Lemma headers_kept_request_body f d s :
  headers_kept s (snd (_request_body f d s)).
Proof.
  rewrite request_body_unfold.
  destruct (next_reply _ _) as [|r]; cbn zeta;
    [| destruct (_validate_response r); [destruct (resp_json r) |]];
    by apply headers_kept_after_post.
Qed.

Lemma headers_kept_call f d s : headers_kept s (snd (call f d s)).
Proof.
  unfold call. rewrite authenticated_unfold.
  destruct (expired s).
  - pose proof (headers_kept_login (tick s)) as Hl.
    destruct (login (tick s)) as [[[]|e] s1]; cbn [snd] in *.
    + eapply headers_kept_trans; [apply headers_kept_tick |].
      eapply headers_kept_trans; [exact Hl |].
      apply headers_kept_request_body.
    + eapply headers_kept_trans; [apply headers_kept_tick | exact Hl].
  - eapply headers_kept_trans; [apply headers_kept_tick |].
    apply headers_kept_request_body.
Qed.

Lemma headers_kept_backoff i s : headers_kept s (snd (backoff i s)).
Proof.
  split; [done |]. eexists [_], []. cbn.
  split; [reflexivity |]. split; [by repeat constructor |]. by left.
Qed.

Lemma headers_kept_retry_loop f d n : forall e i s,
  headers_kept s (snd (retry_loop (call f d) e i n s)).
Proof.
  induction n as [|n IH]; intros e i s; [apply headers_kept_refl |].
  rewrite retry_loop_step. cbn zeta.
  assert (Hstep : headers_kept s (snd (call f d (snd (backoff i s))))).
  { eapply headers_kept_trans; [apply headers_kept_backoff |].
    apply headers_kept_call. }
  destruct (is_throttled _); [| exact Hstep].
  eapply headers_kept_trans; [exact Hstep | apply IH].
Qed.

Lemma headers_kept_request f d s : headers_kept s (snd (_request f d s)).
Proof.
  rewrite request_cases.
  pose proof (headers_kept_call f d s) as Hc.
  destruct (call f d s) as [[a|e] s1]; cbn [snd] in *; [exact Hc |].
  destruct (is_throttled _).
  { eapply headers_kept_trans; [exact Hc | apply headers_kept_retry_loop]. }
  destruct (is_session_invalid e); [| exact Hc].
  unfold bind. pose proof (headers_kept_login s1) as Hl.
  destruct (login s1) as [[[]|e'] s2]; cbn [snd] in *.
  - eapply headers_kept_trans; [exact Hc |].
    eapply headers_kept_trans; [exact Hl | apply headers_kept_call].
  - eapply headers_kept_trans; [exact Hc | exact Hl].
Qed.

Lemma headers_kept_run_all ops : forall s, headers_kept s (run_all ops s).
Proof.
  induction ops as [|[f d] ops IH]; intros s; [apply headers_kept_refl |].
  cbn [run_all foldl]. eapply headers_kept_trans;
    [apply headers_kept_request | apply IH].
Qed.

Lemma validate_bad_status r :
  400 <= status_code r < 600 ->
  _validate_response r = Raise (RequestsHTTPError (status_code r)).
Proof.
  intros [Hlo Hhi]. unfold _validate_response, raise_for_status.
  destruct (Z.leb_spec 400 (status_code r)); [| lia].
  destruct (Z.ltb_spec (status_code r) 600); [done | lia].
Qed.

Lemma validate_failure_raises r m :
  raise_for_status r = Ok tt ->
  resp_json r = Some (JObj m) ->
  truthy (default (JBool false) (m !! "success")) = false ->
  exists e, _validate_response r = Raise e.
Proof.
  intros Hst Hjs Hsucc.
  unfold _validate_response. rewrite Hst, Hjs. cbn zeta. rewrite Hsucc. cbn.
  repeat (destruct (py_eq_int _ _); [by eexists |]). by eexists.
Qed.

(** C5: [login] sends exactly one request: a POST to [{base_url}/login] with
    the body [{userName, systemCode}], the session's headers and no cookie,
    whatever the jar held.  When the server gives no response, or a response
    with an HTTP error status or a failure envelope, or one that does not
    validate otherwise, [login] raises and leaves the expiry time and the
    headers as they were.  When the response validates, [login] returns,
    the header [XSRF-TOKEN] is the value of the response's cookie of that
    name, and the expiry time is the clock's reading plus 1200 seconds; the
    next request of any operation then carries that header, and is the
    operation's own POST as long as the token is valid.  The header stays in
    use: whatever operations are called afterwards, one after the other,
    every request they send carries it, up to and including the next
    request of a login. *)
Theorem C5_login_stores_token_and_expiry :
  forall (s : State),
    trace (world (snd (login s))) =
      trace (world s) ++
        [EvPost (mkRequest (base_url (self s) +:+ "/login")
                   (dict [("userName", JStr (user_name (self s)));
                          ("systemCode", JStr (system_code (self s)))])
                   (omap id (headers (session (self s))))
                   ∅)] /\
    (next_reply s (login_request (self s)) = NoResponse ->
     fst (login s) = Raise RequestException) /\
    (forall r e,
       next_reply s (login_request (self s)) = Replied r ->
       _validate_response r = Raise e ->
       fst (login s) = Raise e) /\
    (forall r,
       next_reply s (login_request (self s)) = Replied r ->
       400 <= status_code r < 600 ->
       fst (login s) = Raise (RequestsHTTPError (status_code r))) /\
    (forall r m,
       next_reply s (login_request (self s)) = Replied r ->
       raise_for_status r = Ok tt ->
       resp_json r = Some (JObj m) ->
       truthy (default (JBool false) (m !! "success")) = false ->
       exists e, fst (login s) = Raise e) /\
    (forall e,
       fst (login s) = Raise e ->
       token_expiration_time (self (snd (login s))) =
         token_expiration_time (self s) /\
       headers (session (self (snd (login s)))) = headers (session (self s))) /\
    (forall r,
       next_reply s (login_request (self s)) = Replied r ->
       _validate_response r = Ok true ->
       let s' := snd (login s) in
       fst (login s) = Ok tt /\
       headers (session (self s')) !! "XSRF-TOKEN" =
         Some (resp_cookies r !! "XSRF-TOKEN") /\
       token_expiration_time (self s') = PrimFloat.add (now s) 1200%float /\
       1200%float = PrimFloat.mul 20%float 60%float /\
       cookies (session (self s')) = resp_cookies r ∪ ∅ /\
       (forall tok function data,
          resp_cookies r !! "XSRF-TOKEN" = Some tok ->
          exists rq rest,
            trace (world (snd (_request function data s'))) =
              trace (world s') ++ EvPost rq :: rest /\
            req_headers rq !! "XSRF-TOKEN" = Some tok /\
            (expired s' = false ->
             rq = op_request (self s') function data)) /\
       (forall tok ops,
          resp_cookies r !! "XSRF-TOKEN" = Some tok ->
          exists pre post,
            trace (world (run_all ops s')) = trace (world s') ++ pre ++ post /\
            Forall (fun e => forall rq, e = EvPost rq ->
                      req_headers rq !! "XSRF-TOKEN" = Some tok) pre /\
            (post = [] \/
             exists rq rest,
               post = EvPost rq :: rest /\
               req_url rq = login_url (self s) /\
               req_json rq = login_body (self s) /\
               req_headers rq !! "XSRF-TOKEN" = Some tok))).
Proof.
  intros s. split; [apply login_trace |].
  split; [intros Hr; by rewrite login_unfold, Hr |].
  split; [intros r e Hr Hv; by rewrite login_unfold, Hr, Hv |].
  split.
  { intros r Hr Hst. by rewrite login_unfold, Hr, (validate_bad_status r Hst). }
  split.
  { intros r m Hr Hst Hjs Hsucc.
    destruct (validate_failure_raises r m Hst Hjs Hsucc) as [e He].
    exists e. by rewrite login_unfold, Hr, He. }
  split; [apply login_failure_keeps_token |].
  intros r Hr Hv s'. subst s'. rewrite (login_success s r Hr Hv). cbn [fst snd].
  split; [done |].
  split; [cbn; apply lookup_insert_eq |].
  split; [done |].
  split; [vm_compute; reflexivity |].
  split; [cbn; apply store_cookies_empty_jar |].
  split.
  { intros tok function data Htok.
    apply first_request_header. cbn. rewrite lookup_insert_eq. by rewrite Htok. }
  intros tok ops Htok.
  assert (Hh : forall rq,
            req_headers rq = omap id (headers (session (self (logged_in s r)))) ->
            req_headers rq !! "XSRF-TOKEN" = Some tok).
  { intros rq ->. cbn. by rewrite lookup_omap, lookup_insert_eq, Htok. }
  destruct (headers_kept_run_all ops (logged_in s r))
    as (_ & pre & post & Ht & Hpre & Hpost).
  exists pre, post. split; [exact Ht |]. split.
  - eapply Forall_impl; [| exact Hpre].
    intros e He rq ->. by apply Hh.
  - destruct Hpost as [[-> _] | (rq & rest & -> & Hu & Hj & Hrq)];
      [by left |].
    right. exists rq, rest. repeat split; [exact Hu | exact Hj | by apply Hh].
Qed.

(** ** Dates *)

Lemma run_date_call_request dc date :
  exists m,
    run_date_call dc date = _request (operation_name dc) (Some (JObj m)) /\
    m !! "collectTime" = Some (JInt (epoch_milliseconds date)).
Proof.
  destruct dc; cbn [run_date_call operation_name];
    unfold get_station_kpi_hour, get_station_kpi_day, get_station_kpi_month,
      get_station_kpi_year, get_dev_kpi_fivemin, get_dev_kpi_hour,
      get_dev_kpi_day, get_dev_kpi_month, get_dev_kpi_year, dict;
    cbn [foldl fst snd]; eexists; (split; [reflexivity |]);
    apply lookup_insert_eq.
Qed.

Lemma config_login_request c c' :
  config c' = config c ->
  req_url (login_request c') = login_url c /\
  req_json (login_request c') = login_body c.
Proof.
  unfold config, login_request, login_url, login_body. cbn.
  intros [= -> -> _ ->]. done.
Qed.

(** C9: each of the nine endpoint methods that take a date only sends, apart
    from the POST of [login], POSTs to its operation whose body maps
    [collectTime] to the integer [whole seconds since the epoch * 1000]; with
    a valid token the first request is such a POST.  For
    2024-01-01T00:00:00Z that integer is 1704067200000. *)
Theorem C9_dates_are_sent_as_epoch_milliseconds :
  (forall (dc : date_call) (date : Timestamp) (s : State),
     exists new,
       trace (world (snd (run_date_call dc date s))) = trace (world s) ++ new /\
       Forall (collect_time_event (self s) (operation_name dc)
                 (epoch_milliseconds date)) new) /\
  (forall (dc : date_call) (date : Timestamp) (s : State),
     expired s = false ->
     exists rq rest m,
       trace (world (snd (run_date_call dc date s))) =
         trace (world s) ++ EvPost rq :: rest /\
       req_url rq = op_url (self s) (operation_name dc) /\
       req_json rq = JObj m /\
       m !! "collectTime" = Some (JInt (epoch_milliseconds date))) /\
  epoch_milliseconds (Timestamp_utc 2024 1 1 0 0 0) = 1704067200000.
Proof.
  split; [| split].
  - intros dc date s.
    destruct (run_date_call_request dc date) as (m & -> & Hm).
    destruct (request_extends (operation_name dc) (Some (JObj m)) s)
      as (_ & _ & _ & _ & new & Hnew & Hall).
    exists new. split; [exact Hnew |].
    eapply Forall_impl; [| exact Hall].
    intros e [(c' & Hc' & [-> | ->]) | [d ->]]; cbn.
    + left. by apply config_login_request.
    + right. split.
      * unfold op_url. unfold config in Hc'. by injection Hc' as _ _ _ ->.
      * by exists m.
    + exact I.
  - intros dc date s Hnow.
    destruct (run_date_call_request dc date) as (m & -> & Hm).
    destruct (request_first_event (operation_name dc) (Some (JObj m)) s)
      as [rest Hrest].
    rewrite Hnow in Hrest.
    eexists _, rest, m. split; [exact Hrest |]. done.
  - vm_compute. reflexivity.
Qed.

(** ** A server that keeps throttling *)

Lemma validate_407 r :
  status_code r = 200 ->
  resp_json r = Some (failure_envelope 407) ->
  _validate_response r = Raise (HTTPError407 (failure_envelope 407)).
Proof.
  intros Hst Hjs. unfold _validate_response, raise_for_status.
  rewrite Hst, Hjs. vm_compute. reflexivity.
Qed.

Lemma replies_407_weaken s n n' :
  (n' <= n)%nat -> replies_407 s n -> replies_407 s n'.
Proof. intros Hle H i rq Hi. apply H. lia. Qed.

Lemma replies_407_shift s s' n :
  server (world s') = server (world s) ->
  posts (world s') = S (posts (world s)) ->
  replies_407 s (S n) -> replies_407 s' n.
Proof.
  intros Hsrv Hposts H i rq Hi.
  destruct (H (S i) rq ltac:(lia)) as (r & Hr & Hst & Hjs).
  exists r. rewrite Hsrv, Hposts.
  replace (S (posts (world s)) + i)%nat with (posts (world s) + S i)%nat by lia.
  done.
Qed.

Lemma call_407 f d s :
  replies_407 s 1 ->
  fst (call f d s) = Raise (HTTPError407 (failure_envelope 407)) /\
  server (world (snd (call f d s))) = server (world s) /\
  posts (world (snd (call f d s))) = S (posts (world s)).
Proof.
  intros H.
  assert (Hnext : forall rq, exists r,
            next_reply s rq = Replied r /\
            _validate_response r = Raise (HTTPError407 (failure_envelope 407))).
  { intros rq. destruct (H O rq ltac:(lia)) as (r & Hr & Hst & Hjs).
    exists r. unfold next_reply. rewrite Nat.add_0_r in Hr.
    split; [exact Hr | by apply validate_407]. }
  unfold call. rewrite authenticated_unfold.
  destruct (expired _).
  - rewrite login_unfold.
    change (next_reply (tick s) (login_request (self (tick s))))
      with (next_reply s (login_request (self s))).
    destruct (Hnext (login_request (self s))) as (r & -> & ->). done.
  - rewrite request_body_unfold.
    change (next_reply (tick s) (op_request (self (tick s)) f d))
      with (next_reply s (op_request (self s) f d)).
    destruct (Hnext (op_request (self s) f d)) as (r & -> & Hv).
    cbn zeta. rewrite Hv. done.
Qed.

Lemma backoff_server_posts i s :
  server (world (snd (backoff i s))) = server (world s) /\
  posts (world (snd (backoff i s))) = posts (world s).
Proof. done. Qed.

Lemma attempt_all_throttled f d k : forall i s,
  replies_407 s (S k) ->
  fst (attempt (call f d) i s k) = Raise (HTTPError407 (failure_envelope 407))
  /\ posts (world (snd (attempt (call f d) i s k))) = (posts (world s) + S k)%nat.
Proof.
  induction k as [|k IH]; intros i s H.
  - destruct (call_407 f d s H) as (Hr & _ & Hp). cbn [attempt].
    split; [exact Hr | lia].
  - destruct (call_407 f d s (replies_407_weaken s (S (S k)) 1 ltac:(lia) H))
      as (_ & Hsrv & Hp).
    cbn [attempt].
    destruct (backoff_server_posts i (snd (call f d s))) as (Hbs & Hbp).
    set (s2 := snd (backoff i (snd (call f d s)))) in *.
    assert (H2 : replies_407 s2 (S k)).
    { apply (replies_407_shift s); [congruence | congruence | exact H]. }
    destruct (IH (i + 1) s2 H2) as (Hr & Hposts).
    split; [exact Hr |].
    rewrite Hposts, Hbp, Hp. lia.
Qed.

(** C8, as the code has it: with the default budget of 6 retries, an
    operation whose first attempt and six retries all receive the envelope
    [{"success": false, "failCode": 407}], seven replies in a row, raises the
    throttling error after seven requests, having slept exactly six times,
    for [1*20+j1], ..., [6*20+j6] seconds with every jitter in [3..10]. *)
Theorem C8_seven_throttled_replies_exhaust_default_budget :
  forall (function : string) (data : option json) (s : State),
    max_retry (self s) = default_max_retry ->
    replies_407 s 7 ->
    let s' := snd (_request function data s) in
    fst (_request function data s) = Raise (HTTPError407 (failure_envelope 407))
    /\ posts (world s') = (posts (world s) + 7)%nat
    /\ exists j1 j2 j3 j4 j5 j6,
         Forall jitter_ok [j1; j2; j3; j4; j5; j6] /\
         sleeps (trace (world s')) =
           sleeps (trace (world s)) ++
             [1 * 20 + j1; 2 * 20 + j2; 3 * 20 + j3;
              4 * 20 + j4; 5 * 20 + j5; 6 * 20 + j6].
Proof.
  intros function data s Hmr H s'. subst s'.
  destruct (call function data s) as [r0 s1] eqn:Hcall.
  destruct (call_407 function data s (replies_407_weaken s 7 1 ltac:(lia) H))
    as (Hr0 & _ & _).
  rewrite Hcall in Hr0. cbn in Hr0. subst r0.
  destruct (throttle_retry_spec (call function data)
              (call_no_sleep function data) s _ s1 Hcall)
    as (k & js & Hk & Hlen & Hjs & _ & Hsleeps & Hout).
  assert (Hmr1 : Z.to_nat (max_retry (self s1)) = 6%nat).
  { replace (max_retry (self s1)) with default_max_retry; [reflexivity |].
    rewrite <- Hmr. apply config_max_retry.
    rewrite <- (call_config function data s). by rewrite Hcall. }
  rewrite Hmr1 in Hk, Hout.
  destruct (attempt_all_throttled function data k 1 s
              (replies_407_weaken s 7 (S k) ltac:(lia) H)) as (Hthr & Hposts).
  rewrite Hthr in Hout. cbn [is_throttled] in Hout.
  destruct Hout as [Hk6 Hout].
  rewrite Hout in Hsleeps. rewrite request_eq, Hout. cbn [fst snd] in *.
  split; [reflexivity |].
  split; [rewrite Hposts, Hk6; reflexivity |].
  rewrite Hk6 in Hlen.
  destruct js as [|j1 [|j2 [|j3 [|j4 [|j5 [|j6 [|]]]]]]]; try discriminate.
  exists j1, j2, j3, j4, j5, j6. split; [exact Hjs |].
  rewrite Hsleeps. reflexivity.
Qed.

(** C8 as stated does not hold: a logged-in client with the default budget
    receives the throttling envelope six times in a row and a successful
    envelope as the seventh reply; it sleeps six times and returns the
    payload instead of raising the throttling error. *)
Lemma C8_counterexample_six_throttled_replies_then_success :
  let payload := success_envelope (JList []) in
  let throttled := ok_response (failure_envelope 407) ∅ in
  let script :=
    [login_ok; throttled; throttled; throttled; throttled; throttled;
     throttled; ok_response payload ∅] in
  let s := mkState fresh_client
             (world_at new_year_2024_clock (scripted script)) in
  let out := (__enter__ ;; get_station_kpi_day "NE=1" new_year_2024) s in
  max_retry (self s) = 6 /\
  fst out = Ok payload /\
  fst out <> Raise (HTTPError407 (failure_envelope 407)) /\
  sleeps (trace (world (snd out))) = [23; 44; 65; 86; 107; 128] /\
  length (posted (trace (world (snd out)))) = 8%nat.
Proof.
  cbv zeta.
  split; [reflexivity |].
  split; [vm_compute; reflexivity |].
  split; [vm_compute; discriminate |].
  split; vm_compute; reflexivity.
Qed.

(** ** The theorems at concrete clients and servers *)

Lemma C10_witness_fresh_client_new_year :
  let w := world_at new_year_2024_clock (scripted [login_ok]) in
  PrimFloat.leb 0%float (clock w (clock_reads w)) = true /\
  token_expiration_time fresh_client = 0%float /\
  exists rest,
    trace (world (snd (_request "getStationList" None
                         (mkState fresh_client w)))) =
    trace w ++ EvPost (login_request fresh_client) :: rest.
Proof.
  cbv zeta.
  assert (H : PrimFloat.leb 0%float
                 (clock (world_at new_year_2024_clock (scripted [login_ok]))
                    (clock_reads (world_at new_year_2024_clock
                                           (scripted [login_ok]))))
               = true).
  { vm_compute. reflexivity. }
  split; [exact H |].
  exact (C10_fresh_client_logs_in_first "user" "secret" default_max_retry
           default_base_url
           (world_at new_year_2024_clock (scripted [login_ok]))
           "getStationList" None H).
Defined.

Lemma C1_witness_server_keeps_throttling :
  let s := session_state (always throttled_response) in
  let function := "getStationList" in
  let data := @None json in
  let body := failure_envelope 407 in
  call function data s =
    (Raise (HTTPError407 body), snd (call function data s)) /\
  exists (retries : nat) (jitters : list Z),
    (retries <= Z.to_nat (max_retry (self s)))%nat /\
    (0 <= max_retry (self s) ->
     Z.of_nat retries + 1 <= max_retry (self s) + 1) /\
    length jitters = retries /\
    Forall jitter_ok jitters /\
    sleeps (trace (world (snd (_request function data s)))) =
      sleeps (trace (world s)) ++ backoff_delays 1 jitters /\
    StronglySorted Z.le (backoff_delays 1 jitters) /\
    (forall m, (m < retries)%nat ->
       is_throttled (fst (attempt (call function data) 1 s m)) = true) /\
    snd (_request function data s) =
      snd (attempt (call function data) 1 s retries) /\
    (n_posted s + (retries + 1)
     <= n_posted (snd (_request function data s))
     <= n_posted s + 2 * (retries + 1))%nat /\
    (if is_throttled (fst (attempt (call function data) 1 s retries))
     then retries = Z.to_nat (max_retry (self s)) /\
          _request function data s =
          (Raise (HTTPError407 body),
           snd (attempt (call function data) 1 s retries))
     else _request function data s =
          attempt (call function data) 1 s retries).
Proof.
  cbv zeta.
  assert (H : call "getStationList" None
                (session_state (always throttled_response)) =
              (Raise (HTTPError407 (failure_envelope 407)),
               snd (call "getStationList" None
                      (session_state (always throttled_response))))).
  { vm_compute. reflexivity. }
  split; [exact H |].
  exact (C1_throttled_call_retried_with_backoff _ _ _ _ _ H).
Defined.

Lemma C2_witness_code_305_then_success :
  let payload := success_envelope (JList []) in
  let script :=
    [ok_response (failure_envelope 305) ∅; login_ok; ok_response payload ∅] in
  let s := session_state (scripted script) in
  let function := "getStationList" in
  let data := @None json in
  let e := HTTPError306 (failure_envelope 305) in
  let s1 := snd (call function data s) in
  (call function data s = (Raise e, s1) /\ is_session_invalid e = true) /\
  fst (_request function data s) = Ok payload /\
  length (posted (trace (world (snd (_request function data s))))) = 3%nat /\
  (forall s2, login s1 = (Ok tt, s2) ->
     _request function data s = call function data s2) /\
  (forall e' s2, login s1 = (Raise e', s2) ->
     _request function data s = (Raise e', s2)) /\
  sleeps (trace (world (snd (_request function data s)))) =
    sleeps (trace (world s)) /\
  (exists rest,
     trace (world (snd (_request function data s))) =
     trace (world s1) ++ EvPost (login_request (self s1)) :: rest) /\
  (forall (code : Z) (r : Response) (m : gmap string json),
     code = 305 \/ code = 306 \/ code = 307 ->
     raise_for_status r = Ok tt ->
     resp_json r = Some (JObj m) ->
     truthy (default (JBool false) (m !! "success")) = false ->
     m !! "failCode" = Some (JInt code) ->
     _validate_response r = Raise (HTTPError306 (JObj m)) /\
     is_session_invalid (HTTPError306 (JObj m)) = true).
Proof.
  cbv zeta.
  set (s := session_state (scripted
         [ok_response (failure_envelope 305) ∅; login_ok;
          ok_response (success_envelope (JList [])) ∅])).
  assert (H : call "getStationList" None s =
              (Raise (HTTPError306 (failure_envelope 305)),
               snd (call "getStationList" None s))).
  { vm_compute. reflexivity. }
  split; [split; [exact H | reflexivity] |].
  split; [vm_compute; reflexivity |].
  split; [vm_compute; reflexivity |].
  exact (C2_session_invalid_relogin_single_retry _ _ _ _ _ H eq_refl).
Defined.

Lemma C7_witness_station_list :
  let payload := <["data" := JList []]> (<["success" := JBool true]> ∅) in
  let r := mkResponse 200 (Some (JObj payload)) {["XSRF-TOKEN" := None]} in
  let s := session_state (always r) in
  let function := "getStationList" in
  let data := @None json in
  let s' := snd (_request function data s) in
  (expired s = false /\
   next_reply s (op_request (self s) function data) = Replied r /\
   raise_for_status r = Ok tt /\
   resp_json r = Some (JObj payload) /\
   payload !! "success" = Some (JBool true)) /\
  (cookies (session (self s)) !! "XSRF-TOKEN" = Some "abc123" /\
   cookies (session (self s')) !! "XSRF-TOKEN" = None) /\
  fst (_request function data s) = Ok (JObj payload) /\
  trace (world s') =
    trace (world s) ++ [EvPost (op_request (self s) function data)] /\
  headers (session (self s')) = headers (session (self s)) /\
  token_expiration_time (self s') = token_expiration_time (self s) /\
  config (self s') = config (self s) /\
  (forall name,
     cookies (session (self s')) !! name =
     match set_cookie r !! name with
     | Some directive => directive
     | None => cookies (session (self s)) !! name
     end) /\
  (set_cookie r = ∅ -> self s' = self s).
Proof.
  cbv zeta.
  set (payload := <["data" := JList []]> (<["success" := JBool true]> ∅)).
  set (r := mkResponse 200 (Some (JObj payload)) {["XSRF-TOKEN" := None]}).
  set (s := session_state (always r)).
  assert (H1 : expired s = false) by (vm_compute; reflexivity).
  assert (H2 : next_reply s (op_request (self s) "getStationList" None)
               = Replied r) by reflexivity.
  assert (H3 : raise_for_status r = Ok tt) by reflexivity.
  assert (H4 : resp_json r = Some (JObj payload)) by reflexivity.
  assert (H5 : payload !! "success" = Some (JBool true)).
  { vm_compute. reflexivity. }
  split; [done |].
  split; [split; vm_compute; reflexivity |].
  exact (C7_success_returns_payload_without_side_effects
           "getStationList" None s r payload H1 H2 H3 H4 H5).
Defined.

Lemma C8_witness_server_keeps_throttling :
  let s := session_state (always throttled_response) in
  let function := "getKpiStationDay" in
  let data := Some (dict [("stationCodes", JStr "NE=1");
                          ("collectTime", JInt 1704067200000)]) in
  let s' := snd (_request function data s) in
  (max_retry (self s) = default_max_retry /\ replies_407 s 7) /\
  fst (_request function data s) = Raise (HTTPError407 (failure_envelope 407))
  /\ posts (world s') = (posts (world s) + 7)%nat
  /\ exists j1 j2 j3 j4 j5 j6,
       Forall jitter_ok [j1; j2; j3; j4; j5; j6] /\
       sleeps (trace (world s')) =
         sleeps (trace (world s)) ++
           [1 * 20 + j1; 2 * 20 + j2; 3 * 20 + j3;
            4 * 20 + j4; 5 * 20 + j5; 6 * 20 + j6].
Proof.
  cbv zeta.
  set (s := session_state (always throttled_response)).
  assert (H1 : max_retry (self s) = default_max_retry) by reflexivity.
  assert (H2 : replies_407 s 7).
  { intros i rq _. exists throttled_response. repeat split. }
  split; [done |].
  exact (C8_seven_throttled_replies_exhaust_default_budget _ _ s H1 H2).
Defined.

Lemma C4_witness_expired_and_valid_token :
  let w := world_at 60%float (scripted [login_ok]) in
  let s := session_state (scripted []) in
  (expired (mkState fresh_client w) = true /\
   exists rest,
     trace (world (snd (_request "getStationList" None
                          (mkState fresh_client w)))) =
     trace w ++ EvPost (login_request fresh_client) :: rest) /\
  (PrimFloat.ltb (now s) (token_expiration_time (self s)) = true /\
   exists rest,
     trace (world (snd (_request "getStationList" None s))) =
     trace (world s) ++
       EvPost (op_request (self s) "getStationList" None) :: rest).
Proof.
  cbv zeta. split.
  - split; [vm_compute; reflexivity |].
    apply (C4_expired_token_logs_in_first "getStationList" None
             (mkState fresh_client
                      (world_at 60%float (scripted [login_ok])))).
  - split; [vm_compute; reflexivity |].
    apply (C4_expired_token_logs_in_first "getStationList" None
             (session_state (scripted []))).
    vm_compute. reflexivity.
Defined.

Lemma C5_witness_token_abc123 :
  let payload := ok_response (success_envelope (JList [])) ∅ in
  let s := mkState fresh_client
             (world_at 60%float (scripted [login_ok; payload; payload])) in
  let s' := snd (login s) in
  let ops := [("getStationList", None);
              ("getDevList", Some (dict [("stationCodes", JStr "NE=1")]))] in
  (next_reply s (login_request (self s)) = Replied login_ok /\
   _validate_response login_ok = Ok true /\
   resp_cookies login_ok !! "XSRF-TOKEN" = Some "abc123") /\
  token_expiration_time (self s') = 1260%float /\
  map (fun rq => (req_url rq, req_headers rq !! "XSRF-TOKEN"))
      (posted (trace (world (run_all ops s')))) =
    [(login_url fresh_client, None);
     (op_url fresh_client "getStationList", Some "abc123");
     (op_url fresh_client "getDevList", Some "abc123")] /\
  (exists rq rest,
     trace (world (snd (_request "getStationList" None s'))) =
       trace (world s') ++ EvPost rq :: rest /\
     req_headers rq !! "XSRF-TOKEN" = Some "abc123" /\
     (expired s' = false ->
      rq = op_request (self s') "getStationList" None)) /\
  (exists pre post,
     trace (world (run_all ops s')) = trace (world s') ++ pre ++ post /\
     Forall (fun e => forall rq, e = EvPost rq ->
               req_headers rq !! "XSRF-TOKEN" = Some "abc123") pre /\
     (post = [] \/
      exists rq rest,
        post = EvPost rq :: rest /\
        req_url rq = login_url (self s) /\
        req_json rq = login_body (self s) /\
        req_headers rq !! "XSRF-TOKEN" = Some "abc123")).
Proof.
  cbv zeta.
  set (payload := ok_response (success_envelope (JList [])) ∅).
  set (s := mkState fresh_client
              (world_at 60%float (scripted [login_ok; payload; payload]))).
  assert (H1 : next_reply s (login_request (self s)) = Replied login_ok)
    by reflexivity.
  assert (H2 : _validate_response login_ok = Ok true)
    by (vm_compute; reflexivity).
  assert (H3 : resp_cookies login_ok !! "XSRF-TOKEN" = Some "abc123")
    by (vm_compute; reflexivity).
  split; [done |].
  destruct (C5_login_stores_token_and_expiry s)
    as (_ & _ & _ & _ & _ & _ & Hok).
  destruct (Hok login_ok H1 H2) as (_ & _ & Hexp & _ & _ & Hnext & Hall).
  split; [rewrite Hexp; vm_compute; reflexivity |].
  split; [vm_compute; reflexivity |].
  split; [exact (Hnext "abc123" "getStationList" None H3) |].
  exact (Hall "abc123" _ H3).
Defined.

Lemma C6_witness_code_401 :
  let m := <["failCode" := JInt 401]> (<["success" := JBool false]> ∅) in
  let r := ok_response (JObj m) ∅ in
  let s := session_state (always r) in
  _validate_response r = Raise (HTTPError (JObj m)) /\
  fst (_request "getStationList" None s) = Raise (HTTPError (JObj m)) /\
  trace (world (snd (_request "getStationList" None s))) =
    trace (world s) ++ [EvPost (op_request (self s) "getStationList" None)].
Proof.
  cbv zeta.
  set (m := <["failCode" := JInt 401]> (<["success" := JBool false]> ∅)).
  set (r := ok_response (JObj m) ∅).
  set (s := session_state (always r)).
  assert (H1 : expired s = false).
  { vm_compute. reflexivity. }
  assert (H2 : truthy (default (JBool false) (m !! "success")) = false).
  { vm_compute. reflexivity. }
  assert (H3 : forall code, In code [305; 306; 307; 407] ->
                 ~ is_number (m !! "failCode") code).
  { intros code Hin Heq.
    assert (H401 : m !! "failCode" = Some (JInt 401))
      by (vm_compute; reflexivity).
    unfold is_number in Heq. rewrite H401 in Heq.
    destruct Heq as [Heq | (f & Heq & _)]; [| discriminate].
    injection Heq as <-. cbn in Hin. lia. }
  destruct C6_other_failure_raises_generic_error_at_once as (Hv & _ & Hrun).
  split; [exact (Hv r m eq_refl eq_refl H2 H3) |].
  exact (Hrun "getStationList" None s r m H1 eq_refl eq_refl eq_refl H2 H3).
Defined.

Lemma C9_witness_station_day_new_year :
  let s := session_state (always throttled_response) in
  expired s = false /\
  exists rq rest m,
    trace (world (snd (get_station_kpi_day "NE=1" new_year_2024 s))) =
      trace (world s) ++ EvPost rq :: rest /\
    req_url rq = op_url (self s) "getKpiStationDay" /\
    req_json rq = JObj m /\
    m !! "collectTime" = Some (JInt 1704067200000).
Proof.
  cbv zeta.
  set (s := session_state (always throttled_response)).
  assert (H : expired s = false).
  { vm_compute. reflexivity. }
  split; [exact H |].
  destruct C9_dates_are_sent_as_epoch_milliseconds as (_ & Hfirst & _).
  destruct (Hfirst (StationKpiDay "NE=1") new_year_2024 s H)
    as (rq & rest & m & Ht & Hu & Hj & Hc).
  exists rq, rest, m. repeat split; assumption.
Defined.

(** * Further properties of the client *)

(** ** The verdicts of [_validate_response] *)

(** X1: [_validate_response] never returns [False].  It returns [True]
    exactly when the status is no 4xx or 5xx, the body decodes to a dict and
    the value under [success] is truthy; a dict with no [success] key is
    therefore refused. *)
Theorem X1_validation_accepts_iff_truthy_success :
  forall (r : Response) (b : bool),
    _validate_response r = Ok b <->
    (b = true /\
     raise_for_status r = Ok tt /\
     exists m, resp_json r = Some (JObj m) /\
               exists v, m !! "success" = Some v /\ truthy v = true).
Proof.
  intros r b. unfold _validate_response. split.
  - destruct (raise_for_status r) as [[]|e]; [| done].
    destruct (resp_json r) as [[| | | | | |m]|]; try done.
    cbn zeta. destruct (m !! "success") as [v|] eqn:Hs;
      cbn [default from_option id].
    + destruct (truthy v) eqn:Hv; cbn [negb].
      * intros H. injection H as Hb. subst b.
        repeat split. exists m. split; [done |]. by exists v.
      * repeat (destruct (py_eq_int _ _); [done |]). done.
    + cbn. repeat (destruct (py_eq_int _ _); [done |]). done.
  - intros (-> & -> & m & -> & v & -> & Hv). cbn. by rewrite Hv.
Qed.

Lemma raise_for_status_error r e :
  raise_for_status r = Raise e -> e = RequestsHTTPError (status_code r).
Proof.
  unfold raise_for_status. destruct (_ && _); [| done]. by intros [= <-].
Qed.

Lemma SFeqb_finite_eq x m e :
  SpecFloat.SFeqb x (SpecFloat.S754_finite false m e) = true ->
  x = SpecFloat.S754_finite false m e.
Proof.
  unfold SpecFloat.SFeqb, SpecFloat.SFcompare.
  destruct x as [sg|sg| |sg m' e']; try discriminate.
  - destruct sg; discriminate.
  - destruct sg; try discriminate.
    destruct (Z.compare_spec e' e) as [He|He|He]; try discriminate.
    change (PosDef.Pos.compare_cont Eq m' m) with (Pos.compare m' m).
    destruct (Pos.compare_spec m' m); try discriminate.
    intros _. congruence.
Qed.

(** No float equals two of the fail codes. *)
Lemma float_eqb_codes f a b :
  In a [305; 306; 307; 407] -> In b [305; 306; 307; 407] ->
  PrimFloat.eqb f (float_of_Z a) = true ->
  PrimFloat.eqb f (float_of_Z b) = true -> a = b.
Proof.
  intros Ha Hb. rewrite !FloatAxioms.eqb_spec. intros H1 H2.
  cbn in Ha, Hb.
  destruct Ha as [<-|[<-|[<-|[<-|[]]]]]; destruct Hb as [<-|[<-|[<-|[<-|[]]]]];
    try reflexivity; exfalso;
    match type of H1 with SpecFloat.SFeqb _ ?c = true =>
      let c' := eval vm_compute in c in change c with c' in H1 end;
    match type of H2 with SpecFloat.SFeqb _ ?c = true =>
      let c' := eval vm_compute in c in change c with c' in H2 end;
    apply SFeqb_finite_eq in H1; apply SFeqb_finite_eq in H2; congruence.
Qed.

Lemma is_number_codes v a b :
  In a [305; 306; 307; 407] -> In b [305; 306; 307; 407] ->
  is_number v a -> is_number v b -> a = b.
Proof.
  intros Ha Hb [H1 | (f1 & H1 & E1)] [H2 | (f2 & H2 & E2)];
    rewrite H1 in H2; try discriminate.
  - congruence.
  - injection H2 as <-. by apply (float_eqb_codes f1).
Qed.

Lemma py_eq_int_number v n :
  n <> 0 -> n <> 1 -> py_eq_int v n = true <-> is_number v n.
Proof.
  intros H0 H1. split.
  - destruct v as [[| b | z | f | | |]|]; cbn [py_eq_int]; try done.
    + destruct b; cbn [Z.b2z]; intros H%Z.eqb_eq; lia.
    + intros H%Z.eqb_eq. subst. by left.
    + intros H. right. by exists f.
  - intros [-> | (f & -> & E)]; cbn [py_eq_int]; [apply Z.eqb_refl | done].
Qed.

(** X2: the classification of a failure goes by the number under [failCode]
    alone, an [int] or a [float] ([407] and [407.0] alike; a boolean, a
    string or an absent key is no fail code).  The throttling error is
    raised exactly for the number 407, and [HTTPError306] exactly for the
    numbers 305, 306 and 307; either way the error carries the whole decoded
    body. *)
Theorem X2_classification_by_numeric_fail_code :
  forall (r : Response) (body : json),
    (_validate_response r = Raise (HTTPError407 body) <->
     raise_for_status r = Ok tt /\ resp_json r = Some body /\
     exists m, body = JObj m /\
       truthy (default (JBool false) (m !! "success")) = false /\
       is_number (m !! "failCode") 407) /\
    (_validate_response r = Raise (HTTPError306 body) <->
     raise_for_status r = Ok tt /\ resp_json r = Some body /\
     exists m, body = JObj m /\
       truthy (default (JBool false) (m !! "success")) = false /\
       (is_number (m !! "failCode") 305 \/
        is_number (m !! "failCode") 306 \/
        is_number (m !! "failCode") 307)).
Proof.
  intros r body.
  unfold _validate_response. split; split.
  - destruct (raise_for_status r) as [[]|e] eqn:Hst;
      [| apply raise_for_status_error in Hst; by subst].
    destruct (resp_json r) as [[| | | | | |m]|]; try done.
    cbn zeta. destruct (truthy _) eqn:Hv; cbn [negb]; [done |].
    destruct (py_eq_int _ 407) eqn:H407.
    + intros [= <-]. repeat split. exists m. repeat split; [done |].
      by apply (py_eq_int_number _ 407).
    + repeat (destruct (py_eq_int _ _); [done |]). done.
  - intros (-> & -> & m & -> & Hv & Hc). cbn zeta. rewrite Hv.
    apply (py_eq_int_number _ 407) in Hc; [| done | done].
    by rewrite Hc.
  - destruct (raise_for_status r) as [[]|e] eqn:Hst;
      [| apply raise_for_status_error in Hst; by subst].
    destruct (resp_json r) as [[| | | | | |m]|]; try done.
    cbn zeta. destruct (truthy _) eqn:Hv; cbn [negb]; [done |].
    destruct (py_eq_int _ 407) eqn:H407; [done |].
    destruct (py_eq_int _ 305) eqn:H305.
    { intros [= <-]. repeat split. exists m. repeat split; [done |].
      left. by apply (py_eq_int_number _ 305). }
    destruct (py_eq_int _ 306) eqn:H306.
    { intros [= <-]. repeat split. exists m. repeat split; [done |].
      right; left. by apply (py_eq_int_number _ 306). }
    destruct (py_eq_int _ 307) eqn:H307; [| done].
    intros [= <-]. repeat split. exists m. repeat split; [done |].
    right; right. by apply (py_eq_int_number _ 307).
  - intros (-> & -> & m & -> & Hv & Hc). cbn zeta. rewrite Hv. cbn [negb].
    assert (H407 : py_eq_int (m !! "failCode") 407 = false).
    { apply py_eq_int_other; [| done | done]. intros H407.
      assert (Hin : forall c, In c [305; 306; 307] ->
                In c [305; 306; 307; 407]) by (cbn; tauto).
      assert (H7 : In 407 [305; 306; 307; 407]) by (cbn; tauto).
      destruct Hc as [Hc | [Hc | Hc]];
        [ pose proof (is_number_codes _ 305 407 (Hin 305 ltac:(cbn; tauto)) H7
                        Hc H407)
        | pose proof (is_number_codes _ 306 407 (Hin 306 ltac:(cbn; tauto)) H7
                        Hc H407)
        | pose proof (is_number_codes _ 307 407 (Hin 307 ltac:(cbn; tauto)) H7
                        Hc H407) ]; done. }
    rewrite H407.
    destruct Hc as [Hc | [Hc | Hc]].
    + apply (py_eq_int_number _ 305) in Hc; [| done | done]. by rewrite Hc.
    + apply (py_eq_int_number _ 306) in Hc; [| done | done]. rewrite Hc.
      by destruct (py_eq_int _ 305).
    + apply (py_eq_int_number _ 307) in Hc; [| done | done]. rewrite Hc.
      destruct (py_eq_int _ 305); [done |]. by destruct (py_eq_int _ 306).
Qed.

(** A fail code that arrives as a float is classified like the integer. *)
Example validate_float_fail_code :
  _validate_response
    (ok_response (dict [("success", JBool false);
                        ("failCode", JFloat 407%float)]) ∅) =
    Raise (HTTPError407 (dict [("success", JBool false);
                               ("failCode", JFloat 407%float)])) /\
  _validate_response
    (ok_response (dict [("success", JBool false);
                        ("failCode", JFloat 305%float)]) ∅) =
    Raise (HTTPError306 (dict [("success", JBool false);
                               ("failCode", JFloat 305%float)])) /\
  _validate_response
    (ok_response (dict [("success", JBool false);
                        ("failCode", JBool true)]) ∅) =
    Raise (HTTPError (dict [("success", JBool false);
                            ("failCode", JBool true)])).
Proof. repeat split; vm_compute; reflexivity. Qed.

(** ** Errors the dispatcher does not handle *)

Lemma call_valid_token f d s :
  expired s = false ->
  call f d s =
  match next_reply s (op_request (self s) f d) with
  | NoResponse =>
      (Raise RequestException,
       after_post (tick s) (op_request (self s) f d)
                  (cookies (session (self s))))
  | Replied r =>
      let s1 := after_post (tick s) (op_request (self s) f d)
                           (store_cookies r (cookies (session (self s)))) in
      match _validate_response r with
      | Raise e => (Raise e, s1)
      | Ok _ => match resp_json r with
                | Some body => (Ok body, s1)
                | None => (Raise JSONDecodeError, s1)
                end
      end
  end.
Proof.
  intros Hnow. rewrite (call_unexpired f d s Hnow), request_body_unfold.
  reflexivity.
Qed.

Lemma request_unhandled_reply f d s r e :
  expired s = false ->
  next_reply s (op_request (self s) f d) = Replied r ->
  _validate_response r = Raise e ->
  is_throttled (@Raise json e) = false ->
  is_session_invalid e = false ->
  fst (_request f d s) = Raise e /\
  trace (world (snd (_request f d s))) =
    trace (world s) ++ [EvPost (op_request (self s) f d)].
Proof.
  intros Hnow Hr Hv Hthr Hsi.
  pose proof (call_valid_token f d s Hnow) as Hcall.
  rewrite Hr in Hcall. cbn zeta in Hcall. rewrite Hv in Hcall.
  rewrite (request_not_handled _ _ _ _ _ Hcall Hthr); [done |].
  by intros e' [= <-].
Qed.

(** X3: with a valid token, a request that gets no response, a response with
    a 4xx or 5xx status (whatever its body says), a body that is no JSON, or
    a JSON body that is no dict makes the operation raise at once
    ([RequestException], the status error, [JSONDecodeError],
    [AttributeError]): one request was sent, the operation's, and there is
    no retry, no sleep and no login. *)
Theorem X3_transport_and_decoding_errors_are_not_retried :
  forall (function : string) (data : option json) (s : State),
    expired s = false ->
    let rq := op_request (self s) function data in
    let out := _request function data s in
    (next_reply s rq = NoResponse ->
     fst out = Raise RequestException /\
     trace (world (snd out)) = trace (world s) ++ [EvPost rq]) /\
    (forall r,
       next_reply s rq = Replied r ->
       400 <= status_code r < 600 ->
       fst out = Raise (RequestsHTTPError (status_code r)) /\
       trace (world (snd out)) = trace (world s) ++ [EvPost rq]) /\
    (forall r,
       next_reply s rq = Replied r ->
       raise_for_status r = Ok tt ->
       resp_json r = None ->
       fst out = Raise JSONDecodeError /\
       trace (world (snd out)) = trace (world s) ++ [EvPost rq]) /\
    (forall r v,
       next_reply s rq = Replied r ->
       raise_for_status r = Ok tt ->
       resp_json r = Some v ->
       (forall m, v <> JObj m) ->
       fst out = Raise AttributeError /\
       trace (world (snd out)) = trace (world s) ++ [EvPost rq]).
Proof.
  intros function data s Hnow rq out. subst rq out.
  split; [| split; [| split]].
  - intros Hr.
    pose proof (call_valid_token function data s Hnow) as Hcall.
    rewrite Hr in Hcall.
    rewrite (request_not_handled _ _ _ _ _ Hcall eq_refl); [done |].
    by intros e' [= <-].
  - intros r Hr Hst.
    apply (request_unhandled_reply _ _ _ r); try done.
    by apply validate_bad_status.
  - intros r Hr Hst Hjs.
    apply (request_unhandled_reply _ _ _ r); try done.
    unfold _validate_response. by rewrite Hst, Hjs.
  - intros r v Hr Hst Hjs Hv.
    apply (request_unhandled_reply _ _ _ r); try done.
    unfold _validate_response. rewrite Hst, Hjs.
    destruct v; try done. by destruct (Hv m).
Qed.

Lemma X3_witness_service_unavailable :
  let r := mkResponse 503 (Some (success_envelope JNull)) ∅ in
  let s := session_state (always r) in
  let rq := op_request (self s) "getStationList" None in
  let out := _request "getStationList" None s in
  expired s = false /\
  fst out = Raise (RequestsHTTPError 503) /\
  trace (world (snd out)) = trace (world s) ++ [EvPost rq].
Proof.
  cbv zeta.
  set (r := mkResponse 503 (Some (success_envelope JNull)) ∅).
  set (s := session_state (always r)).
  assert (H : expired s = false).
  { vm_compute. reflexivity. }
  split; [exact H |].
  destruct (X3_transport_and_decoding_errors_are_not_retried
              "getStationList" None s H) as (_ & Hst & _).
  apply (Hst r eq_refl). cbn. lia.
Defined.

(** ** What one operation may send and how long it may sleep *)

Lemma relogin_no_sleep f d s1 :
  sleeps (trace (world (snd ((login ;; call f d) s1)))) =
  sleeps (trace (world s1)).
Proof.
  unfold bind. pose proof (login_trace s1) as Hlt.
  destruct (login s1) as [[[]|e] s2]; cbn [snd] in *.
  - rewrite call_no_sleep, Hlt, sleeps_app. cbn. by rewrite app_nil_r.
  - rewrite Hlt, sleeps_app. cbn. by rewrite app_nil_r.
Qed.

Lemma request_no_sleep_unless_throttled f d s :
  is_throttled (fst (call f d s)) = false ->
  sleeps (trace (world (snd (_request f d s)))) = sleeps (trace (world s)).
Proof.
  intros Hthr. rewrite request_cases.
  pose proof (call_no_sleep f d s) as Hcall.
  destruct (call f d s) as [[a|e] s1]; cbn [fst snd] in *; [exact Hcall |].
  rewrite Hthr.
  destruct (is_session_invalid e); [| exact Hcall].
  by rewrite relogin_no_sleep.
Qed.

(** X4: the dispatcher sleeps only on throttling: when the first attempt of
    an operation does not raise the throttling error, the operation ends
    without any sleep, also when it logs in again and retries. *)
Theorem X4_no_sleep_unless_first_attempt_throttled :
  forall (function : string) (data : option json) (s : State),
    is_throttled (fst (call function data s)) = false ->
    sleeps (trace (world (snd (_request function data s)))) =
    sleeps (trace (world s)).
Proof. intros. by apply request_no_sleep_unless_throttled. Qed.

Lemma total_backoff_delays js : forall i,
  Forall jitter_ok js ->
  total (backoff_delays i js) <=
    20 * i * Z.of_nat (length js)
    + 10 * Z.of_nat (length js) * (Z.of_nat (length js) - 1)
    + 10 * Z.of_nat (length js).
Proof.
  induction js as [|j js IH]; intros i Hjs; [cbn; lia |].
  inversion Hjs as [|? ? Hj Hjs']; subst.
  specialize (IH (i + 1) Hjs'). unfold jitter_ok in Hj.
  cbn [backoff_delays total foldr length] in *. fold (total (backoff_delays (i + 1) js)).
  unfold total in IH |- *. nia.
Qed.

(** X5: one operation sleeps at most [max_retry] times, every time for at
    least 23 seconds, and for at most [10*N*(N+1) + 10*N] seconds in all,
    where [N] is the retry budget (a negative budget counting as 0): 480
    seconds for the default budget of 6. *)
Theorem X5_total_sleep_of_an_operation_is_bounded :
  forall (function : string) (data : option json) (s : State),
    let N := Z.of_nat (Z.to_nat (max_retry (self s))) in
    exists delays,
      sleeps (trace (world (snd (_request function data s)))) =
        sleeps (trace (world s)) ++ delays /\
      Z.of_nat (length delays) <= N /\
      Forall (fun d => 23 <= d) delays /\
      total delays <= 10 * N * (N + 1) + 10 * N /\
      (max_retry (self s) = default_max_retry -> total delays <= 480).
Proof.
  intros function data s N.
  assert (Hbound : forall delays,
            Z.of_nat (length delays) <= N ->
            total delays <= 10 * Z.of_nat (length delays)
                              * (Z.of_nat (length delays) + 1)
                            + 10 * Z.of_nat (length delays) ->
            total delays <= 10 * N * (N + 1) + 10 * N /\
            (max_retry (self s) = default_max_retry -> total delays <= 480)).
  { intros delays Hlen Htot. split; [nia |].
    intros Hmr. subst N. rewrite Hmr in Hlen.
    change (Z.of_nat (Z.to_nat default_max_retry)) with 6 in Hlen. nia. }
  destruct (is_throttled (fst (call function data s))) eqn:Hthr.
  - destruct (call function data s) as [[a|e] s1] eqn:Hcall; [done |].
    destruct e; try done.
    destruct (throttle_retry_spec (call function data)
                (call_no_sleep function data) s body s1 Hcall)
      as (k & js & Hk & Hlen & Hjs & _ & Hsleeps & _).
    assert (Hmr : max_retry (self s1) = max_retry (self s)).
    { apply config_max_retry.
      rewrite <- (call_config function data s). by rewrite Hcall. }
    rewrite Hmr in Hk.
    assert (Hlen' : length (backoff_delays 1 js) = length js).
    { clear. generalize 1. induction js as [|j js IH]; intros i; cbn;
        [done | by rewrite IH]. }
    exists (backoff_delays 1 js). rewrite request_eq.
    split; [exact Hsleeps |].
    split; [rewrite Hlen'; subst N; lia |].
    split.
    { eapply Forall_impl; [| apply (backoff_delays_lower js 1 Hjs)].
      cbn. intros d Hd. lia. }
    apply Hbound; rewrite Hlen'; [subst N; lia |].
    pose proof (total_backoff_delays js 1 Hjs). nia.
  - exists []. rewrite app_nil_r.
    split; [by apply request_no_sleep_unless_throttled |].
    split; [cbn; subst N; lia |].
    split; [constructor |].
    apply Hbound; cbn; subst N; lia.
Qed.

Lemma retry_loop_n_posted f d n : forall e i s,
  (n_posted s <= n_posted (snd (retry_loop (call f d) e i n s))
   <= n_posted s + 2 * n)%nat.
Proof.
  induction n as [|n IH]; intros e i s; [cbn; lia |].
  rewrite retry_loop_step. cbn zeta.
  assert (Hb : n_posted (snd (backoff i s)) = n_posted s).
  { unfold n_posted. cbn. rewrite posted_app. cbn. by rewrite app_nil_r. }
  pose proof (call_n_posted f d (snd (backoff i s))) as Hc.
  destruct (is_throttled _); [| lia].
  specialize (IH e (i + 1) (snd (call f d (snd (backoff i s))))). lia.
Qed.

(** X6: one operation sends at least one request and at most
    [max 5 (2 * (N + 1))] requests, logins included, where [N] is the retry
    budget (a negative budget counting as 0). *)
Theorem X6_requests_of_an_operation_are_bounded :
  forall (function : string) (data : option json) (s : State),
    let N := Z.to_nat (max_retry (self s)) in
    let s' := snd (_request function data s) in
    (n_posted s + 1 <= n_posted s' <= n_posted s + Nat.max 5 (2 * (N + 1)))%nat.
Proof.
  intros function data s N s'. subst s'.
  rewrite request_cases.
  pose proof (call_n_posted function data s) as Hc.
  pose proof (call_config function data s) as Hcfg.
  destruct (call function data s) as [[a|e] s1]; cbn [snd] in *; [lia |].
  destruct (is_throttled _).
  - rewrite (config_max_retry _ _ Hcfg). fold N.
    pose proof (retry_loop_n_posted function data N e 1 s1). lia.
  - destruct (is_session_invalid e); [| cbn [snd]; lia].
    unfold bind. pose proof (login_n_posted s1) as Hl.
    destruct (login s1) as [[[]|e'] s2]; cbn [snd] in *; [| lia].
    pose proof (call_n_posted function data s2). lia.
Qed.

Lemma call_event_request_event c f d e :
  call_event c f d e -> request_event c f d e.
Proof.
  intros (c' & Hc' & [-> | ->]); unfold request_event.
  - left. destruct (config_login_request c c' Hc') as [H1 H2]. done.
  - right. split; [| done].
    unfold op_request, op_url. cbn [req_url].
    unfold config in Hc'. by injection Hc' as _ _ _ ->.
Qed.

(** X7: an operation never changes the client's user name, system code,
    retry budget or base URL, and every request it sends, on the first
    attempt and on every retry, is either the login POST to
    [{base_url}/login], with the credentials as body and no cookie, or a POST
    to [{base_url}/{function}] with the caller's data as body ([{}] when no
    data is given). *)
Theorem X7_requests_go_to_login_or_the_operation :
  forall (function : string) (data : option json) (s : State),
    let s' := snd (_request function data s) in
    config (self s') = config (self s) /\
    exists new,
      trace (world s') = trace (world s) ++ new /\
      Forall (request_event (self s) function data) new.
Proof.
  intros function data s s'. subst s'.
  destruct (request_extends function data s)
    as (Hcfg & _ & _ & _ & new & Hnew & Hall).
  split; [exact Hcfg |].
  exists new. split; [exact Hnew |].
  eapply Forall_impl; [| exact Hall].
  intros e [He | [dl ->]]; [by apply call_event_request_event | exact I].
Qed.

(** ** Login inside and outside an operation *)

Lemma first_request_without_header f d s :
  headers (session (self s)) !! "XSRF-TOKEN" = Some None ->
  exists rq rest,
    trace (world (snd (_request f d s))) = trace (world s) ++ EvPost rq :: rest
    /\ req_headers rq !! "XSRF-TOKEN" = None.
Proof.
  intros Hh. destruct (request_first_event f d s) as [rest Hrest].
  eexists _, rest. split; [exact Hrest |].
  destruct (expired _); cbn; by rewrite lookup_omap, Hh.
Qed.

(** X8: [login] does not require the token cookie.  When a valid login
    response sets no [XSRF-TOKEN] cookie, [login] still returns normally and
    moves the expiry time 1200 seconds ahead, but the header [XSRF-TOKEN] is
    set to [None], so the next request carries no such header, not even a
    token stored by an earlier login. *)
Theorem X8_login_without_token_cookie_drops_header :
  forall (s : State) (r : Response),
    next_reply s (login_request (self s)) = Replied r ->
    _validate_response r = Ok true ->
    resp_cookies r !! "XSRF-TOKEN" = None ->
    let s' := snd (login s) in
    fst (login s) = Ok tt /\
    token_expiration_time (self s') = PrimFloat.add (now s) 1200%float /\
    headers (session (self s')) !! "XSRF-TOKEN" = Some None /\
    forall function data,
      exists rq rest,
        trace (world (snd (_request function data s'))) =
          trace (world s') ++ EvPost rq :: rest /\
        req_headers rq !! "XSRF-TOKEN" = None.
Proof.
  intros s r Hr Hv Hc s'. subst s'.
  rewrite (login_success s r Hr Hv). cbn [fst snd].
  assert (Hh : headers (session (self (logged_in s r))) !! "XSRF-TOKEN"
               = Some None).
  { cbn. by rewrite lookup_insert_eq, Hc. }
  repeat split; [exact Hh |].
  intros function data. by apply first_request_without_header.
Qed.

Lemma X8_witness_stale_token_is_dropped :
  let r := ok_response (success_envelope JNull) ∅ in
  let s := session_state (always r) in
  let s' := snd (login s) in
  headers (session (self s)) !! "XSRF-TOKEN" = Some (Some "abc123") /\
  fst (login s) = Ok tt /\
  token_expiration_time (self s') = PrimFloat.add (now s) 1200%float /\
  headers (session (self s')) !! "XSRF-TOKEN" = Some None /\
  forall function data,
    exists rq rest,
      trace (world (snd (_request function data s'))) =
        trace (world s') ++ EvPost rq :: rest /\
      req_headers rq !! "XSRF-TOKEN" = None.
Proof.
  cbv zeta. split; [vm_compute; reflexivity |].
  apply (X8_login_without_token_cookie_drops_header
           (session_state (always (ok_response (success_envelope JNull) ∅)))
           (ok_response (success_envelope JNull) ∅)).
  - reflexivity.
  - vm_compute. reflexivity.
  - vm_compute. reflexivity.
Defined.

(** X9: when the token has expired and the login made for it fails with an
    error other than throttling or session-invalid, the operation raises that
    error after the login POST alone: the operation itself is never sent. *)
Theorem X9_failed_login_keeps_operation_from_being_sent :
  forall (function : string) (data : option json) (s : State) (e : exn),
    expired s = true ->
    fst (login (tick s)) = Raise e ->
    is_throttled (@Raise json e) = false ->
    is_session_invalid e = false ->
    fst (_request function data s) = Raise e /\
    trace (world (snd (_request function data s))) =
      trace (world s) ++ [EvPost (login_request (self s))].
Proof.
  intros function data s e Hexp Hlogin Hthr Hsi.
  assert (Hcall : call function data s = (Raise e, snd (login (tick s)))).
  { unfold call. rewrite authenticated_unfold.
    rewrite Hexp.
    destruct (login (tick s)) as [[[]|e'] s1]; cbn in Hlogin; [done |].
    by injection Hlogin as ->. }
  rewrite (request_not_handled _ _ _ _ _ Hcall Hthr);
    [| by intros e' [= <-]].
  split; [done |]. cbn [snd]. apply (login_trace (tick s)).
Qed.

Lemma X9_witness_wrong_credentials :
  let r := ok_response (failure_envelope 20001) ∅ in
  let s := mkState fresh_client (world_at 60%float (always r)) in
  fst (_request "getStationList" None s) =
    Raise (HTTPError (failure_envelope 20001)) /\
  trace (world (snd (_request "getStationList" None s))) =
    trace (world s) ++ [EvPost (login_request (self s))].
Proof.
  cbv zeta.
  apply X9_failed_login_keeps_operation_from_being_sent.
  - vm_compute. reflexivity.
  - vm_compute. reflexivity.
  - reflexivity.
  - reflexivity.
Defined.

(** ** Operations in sequence *)

Lemma request_after_login_success f d s r0 r1 :
  expired s = true ->
  (forall rq, server (world s) (posts (world s)) rq = Replied r0) ->
  _validate_response r0 = Ok true ->
  (forall rq, server (world s) (S (posts (world s))) rq = Replied r1) ->
  _validate_response r1 = Ok true ->
  exists body,
    resp_json r1 = Some body /\
    _request f d s =
    (Ok body,
     after_post (logged_in (tick s) r0)
       (op_request (self (logged_in (tick s) r0)) f d)
       (store_cookies r1 (store_cookies r0 ∅))).
Proof.
  intros Hexp H0 Hv0 H1 Hv1.
  destruct (validate_ok_json r1 true Hv1) as [m Hm].
  exists (JObj m). split; [exact Hm |].
  apply request_not_handled; [| done | done].
  unfold call. rewrite authenticated_unfold.
  rewrite Hexp.
  rewrite login_unfold. unfold next_reply at 1. cbn [tick world posts server].
  rewrite H0, Hv0. rewrite request_body_unfold.
  unfold next_reply. cbn [logged_in world posts server].
  change (server (world (tick s))) with (server (world s)).
  change (posts (world (tick s))) with (posts (world s)).
  rewrite H1. cbn zeta. by rewrite Hv1, Hm.
Qed.

(** X10: a token is reused until the stored expiry time.  When an operation
    had to log in and succeeded, the expiry time it leaves is the float sum
    of the clock's reading at that login and 1200, and the operation that
    follows it compares that sum with its own reading of the clock: as long
    as the sum is above the reading it sends no login, its first request is
    its own POST, with the token of the login as header and the cookies the
    jar holds by then; once the sum is at or below the reading its first
    request is a new login.  The sum is rounded, so it need not be the
    decimal sum of the reading and 1200. *)
Theorem X10_token_is_reused_until_stored_expiry :
  forall (f1 : string) (d1 : option json) (f2 : string) (d2 : option json)
         (s : State) (r0 r1 : Response),
    expired s = true ->
    (forall rq, server (world s) (posts (world s)) rq = Replied r0) ->
    _validate_response r0 = Ok true ->
    (forall rq, server (world s) (S (posts (world s))) rq = Replied r1) ->
    _validate_response r1 = Ok true ->
    let login_time := clock (world s) (S (clock_reads (world s))) in
    let next_time := clock (world s) (S (S (clock_reads (world s)))) in
    let expiry := PrimFloat.add login_time 1200%float in
    let s1 := snd (_request f1 d1 s) in
    exists rq1 rq2 rest,
      trace (world (snd ((_request f1 d1 ;; _request f2 d2) s))) =
        trace (world s) ++
          EvPost (login_request (self s)) :: EvPost rq1 :: EvPost rq2 :: rest /\
      req_url rq1 = op_url (self s) f1 /\
      token_expiration_time (self s1) = expiry /\
      rq2 = (if PrimFloat.leb expiry next_time
             then login_request (self s1)
             else op_request (self s1) f2 d2) /\
      req_headers rq2 !! "XSRF-TOKEN" = resp_cookies r0 !! "XSRF-TOKEN" /\
      (PrimFloat.leb expiry next_time = false ->
       req_url rq2 = op_url (self s) f2 /\
       req_json rq2 = op_data d2 /\
       req_cookies rq2 = store_cookies r1 (store_cookies r0 ∅)) /\
      (PrimFloat.leb expiry next_time = true ->
       req_url rq2 = login_url (self s) /\
       req_json rq2 = login_body (self s) /\
       req_cookies rq2 = ∅).
Proof.
  intros f1 d1 f2 d2 s r0 r1 Hexp H0 Hv0 H1 Hv1 login_time next_time expiry s1.
  destruct (request_after_login_success f1 d1 s r0 r1 Hexp H0 Hv0 H1 Hv1)
    as (body & Hbody & Hreq).
  subst s1. unfold bind. rewrite Hreq. cbn [snd].
  set (s1 := after_post _ _ _).
  destruct (request_first_event f2 d2 s1) as [rest Hrest].
  assert (Hexp1 : expired s1 = PrimFloat.leb expiry next_time) by reflexivity.
  rewrite Hexp1 in Hrest.
  eexists _, _, rest. split.
  { rewrite Hrest. subst s1. cbn [after_post logged_in tick world trace self].
    rewrite <- !app_assoc. reflexivity. }
  split; [reflexivity |].
  split; [reflexivity |].
  split; [reflexivity |].
  split.
  { destruct (PrimFloat.leb expiry next_time); cbn;
      rewrite lookup_omap, lookup_insert_eq;
      by destruct (resp_cookies r0 !! "XSRF-TOKEN"). }
  split; intros ->; done.
Qed.

Lemma X10_witness_two_station_queries :
  let payload := ok_response (success_envelope (JList [])) ∅ in
  let s := mkState fresh_client
             (world_reading [60; 747.144854; 1947.144854]%float
                (scripted [login_ok; payload; payload])) in
  let s1 := snd (_request "getStationList" None s) in
  exists rq1 rq2 rest,
    trace (world (snd ((_request "getStationList" None ;;
                        _request "getDevList"
                          (Some (dict [("stationCodes", JStr "NE=1")]))) s))) =
      trace (world s) ++
        EvPost (login_request (self s)) :: EvPost rq1 :: EvPost rq2 :: rest /\
    req_url rq1 = op_url (self s) "getStationList" /\
    token_expiration_time (self s1) =
      PrimFloat.add 747.144854%float 1200%float /\
    PrimFloat.ltb 1947.144854%float (token_expiration_time (self s1)) = true /\
    rq2 = op_request (self s1) "getDevList"
            (Some (dict [("stationCodes", JStr "NE=1")])) /\
    req_headers rq2 !! "XSRF-TOKEN" = Some "abc123".
Proof.
  cbv zeta.
  set (payload := ok_response (success_envelope (JList [])) ∅).
  set (s := mkState fresh_client
              (world_reading [60; 747.144854; 1947.144854]%float
                 (scripted [login_ok; payload; payload]))).
  assert (H0 : expired s = true).
  { vm_compute. reflexivity. }
  assert (Hv0 : _validate_response login_ok = Ok true)
    by (vm_compute; reflexivity).
  assert (Hv1 : _validate_response payload = Ok true)
    by (vm_compute; reflexivity).
  destruct (X10_token_is_reused_until_stored_expiry
              "getStationList" None "getDevList"
              (Some (dict [("stationCodes", JStr "NE=1")]))
              s login_ok payload H0 (fun _ => eq_refl) Hv0
              (fun _ => eq_refl) Hv1)
    as (rq1 & rq2 & rest & Ht & Hu & He & Hrq & Hh & _).
  exists rq1, rq2, rest.
  split; [exact Ht |]. split; [exact Hu |]. split; [exact He |].
  split; [rewrite He; vm_compute; reflexivity |].
  split; [exact Hrq |]. rewrite Hh. vm_compute. reflexivity.
Defined.

(** ** Exhausting any retry budget *)

Lemma length_backoff_delays js : forall i,
  length (backoff_delays i js) = length js.
Proof. induction js as [|j js IH]; intros i; cbn; [done | by rewrite IH]. Qed.

(** X11: for any retry budget [N] (a negative budget counting as 0), an
    operation whose first [N + 1] requests are all answered with the
    throttling envelope raises the throttling error after exactly [N + 1]
    requests and exactly [N] sleeps; with a budget of 0 it raises at once,
    without sleeping. *)
Theorem X11_throttled_replies_exhaust_any_budget :
  forall (function : string) (data : option json) (s : State),
    let N := Z.to_nat (max_retry (self s)) in
    let s' := snd (_request function data s) in
    replies_407 s (S N) ->
    fst (_request function data s) = Raise (HTTPError407 (failure_envelope 407))
    /\ posts (world s') = (posts (world s) + S N)%nat
    /\ exists jitters,
         length jitters = N /\ Forall jitter_ok jitters /\
         sleeps (trace (world s')) =
           sleeps (trace (world s)) ++ backoff_delays 1 jitters /\
         length (backoff_delays 1 jitters) = N.
Proof.
  intros function data s N s' H. subst s'.
  destruct (call function data s) as [r0 s1] eqn:Hcall.
  destruct (call_407 function data s (replies_407_weaken s (S N) 1 ltac:(lia) H))
    as (Hr0 & _ & _).
  rewrite Hcall in Hr0. cbn in Hr0. subst r0.
  destruct (throttle_retry_spec (call function data)
              (call_no_sleep function data) s _ s1 Hcall)
    as (k & js & Hk & Hlen & Hjs & _ & Hsleeps & Hout).
  assert (Hmr1 : Z.to_nat (max_retry (self s1)) = N).
  { subst N. f_equal. apply config_max_retry.
    rewrite <- (call_config function data s). by rewrite Hcall. }
  rewrite Hmr1 in Hk, Hout.
  destruct (attempt_all_throttled function data k 1 s
              (replies_407_weaken s (S N) (S k) ltac:(lia) H))
    as (Hthr & Hposts).
  rewrite Hthr in Hout. cbn [is_throttled] in Hout.
  destruct Hout as [HkN Hout].
  rewrite Hout in Hsleeps. rewrite request_eq, Hout. cbn [fst snd] in *.
  split; [reflexivity |].
  split; [rewrite Hposts, HkN; reflexivity |].
  exists js. rewrite length_backoff_delays. by rewrite <- HkN.
Qed.

Lemma X11_witness_budget_zero :
  let c := Client_init "user" "secret" 0 default_base_url in
  let s := mkState c (world_at 60%float (always throttled_response)) in
  let s' := snd (_request "getStationList" None s) in
  replies_407 s 1 /\
  fst (_request "getStationList" None s)
    = Raise (HTTPError407 (failure_envelope 407))
  /\ posts (world s') = (posts (world s) + 1)%nat
  /\ exists jitters,
       length jitters = 0%nat /\ Forall jitter_ok jitters /\
       sleeps (trace (world s')) =
         sleeps (trace (world s)) ++ backoff_delays 1 jitters /\
       length (backoff_delays 1 jitters) = 0%nat.
Proof.
  cbv zeta.
  set (s := mkState (Client_init "user" "secret" 0 default_base_url)
              (world_at 60%float (always throttled_response))).
  assert (H : replies_407 s 1).
  { intros i rq _. exists throttled_response. repeat split. }
  split; [exact H |].
  exact (X11_throttled_replies_exhaust_any_budget "getStationList" None s H).
Defined.

(** ** A session that dies while the dispatcher backs off *)

(** X12: the re-login of the session-invalid handler does not apply inside
    the throttle loop.  With a valid token and a budget of at least one
    retry, an operation whose first request is answered with the throttling
    envelope and whose retry is answered with a session-invalid failure
    raises that session-invalid error: it sent the operation, slept once for
    [20 + jitter] seconds, sent the operation again, and never logged in. *)
Theorem X12_session_invalid_on_a_throttle_retry_is_raised :
  forall (function : string) (data : option json) (s : State)
         (r1 r2 : Response) (body : json) (e : exn),
    expired s = false ->
    PrimFloat.leb (token_expiration_time (self s))
                  (clock (world s) (S (clock_reads (world s)))) = false ->
    1 <= max_retry (self s) ->
    (forall rq, server (world s) (posts (world s)) rq = Replied r1) ->
    _validate_response r1 = Raise (HTTPError407 body) ->
    (forall rq, server (world s) (S (posts (world s))) rq = Replied r2) ->
    _validate_response r2 = Raise e ->
    is_session_invalid e = true ->
    fst (_request function data s) = Raise e /\
    exists jitter rq2,
      jitter_ok jitter /\
      trace (world (snd (_request function data s))) =
        trace (world s) ++
          [EvPost (op_request (self s) function data);
           EvSleep (1 * 20 + jitter);
           EvPost rq2] /\
      req_url rq2 = op_url (self s) function /\
      req_json rq2 = op_data data.
Proof.
  intros function data s r1 r2 body e Hnow Hnow2 Hmr H1 Hv1 H2 Hv2 Hsi.
  pose proof (call_valid_token function data s Hnow) as Hcall1.
  unfold next_reply in Hcall1. rewrite H1 in Hcall1. cbn zeta in Hcall1.
  rewrite Hv1 in Hcall1.
  set (s1 := after_post (tick s) (op_request (self s) function data)
               (store_cookies r1 (cookies (session (self s))))) in *.
  rewrite request_eq. unfold throttle_retry. rewrite Hcall1.
  change (max_retry (self s1)) with (max_retry (self s)).
  destruct (Z.to_nat (max_retry (self s))) as [|n] eqn:Hn; [lia |].
  rewrite retry_loop_step.
  set (s2 := snd (backoff 1 s1)).
  assert (Hnow' : expired s2 = false) by exact Hnow2.
  pose proof (call_valid_token function data s2 Hnow') as Hcall2.
  unfold next_reply in Hcall2.
  change (server (world s2)) with (server (world s)) in Hcall2.
  change (posts (world s2)) with (S (posts (world s))) in Hcall2.
  rewrite H2 in Hcall2. cbn zeta in Hcall2. rewrite Hv2 in Hcall2.
  cbn zeta. rewrite Hcall2. cbn [fst snd].
  assert (Hthr : is_throttled (@Raise json e) = false) by (by destruct e).
  rewrite Hthr. cbn [fst snd].
  split; [reflexivity |].
  exists (3 + rng (world s) (rng_draws (world s)) mod (10 - 3 + 1)),
         (op_request (self s2) function data).
  split.
  { unfold jitter_ok.
    pose proof (Z.mod_pos_bound (rng (world s) (rng_draws (world s)))
                  (10 - 3 + 1)). lia. }
  split; [| done].
  cbn. rewrite <- !app_assoc. reflexivity.
Qed.

Lemma X12_witness_throttled_then_code_305 :
  let r1 := throttled_response in
  let r2 := ok_response (failure_envelope 305) ∅ in
  let s := session_state (scripted [r1; r2; login_ok]) in
  let e := HTTPError306 (failure_envelope 305) in
  fst (_request "getStationList" None s) = Raise e /\
  exists jitter rq2,
    jitter_ok jitter /\
    trace (world (snd (_request "getStationList" None s))) =
      trace (world s) ++
        [EvPost (op_request (self s) "getStationList" None);
         EvSleep (1 * 20 + jitter);
         EvPost rq2] /\
    req_url rq2 = op_url (self s) "getStationList" /\
    req_json rq2 = op_data None.
Proof.
  cbv zeta.
  set (s := session_state
              (scripted [throttled_response;
                         ok_response (failure_envelope 305) ∅; login_ok])).
  apply (X12_session_invalid_on_a_throttle_retry_is_raised
           "getStationList" None s throttled_response
           (ok_response (failure_envelope 305) ∅) (failure_envelope 407)).
  - vm_compute. reflexivity.
  - vm_compute. reflexivity.
  - vm_compute. discriminate.
  - intros rq. reflexivity.
  - vm_compute. reflexivity.
  - intros rq. reflexivity.
  - vm_compute. reflexivity.
  - reflexivity.
Defined.

Lemma X4_witness_generic_failure :
  let r := ok_response (failure_envelope 20001) ∅ in
  let s := session_state (always r) in
  is_throttled (fst (call "getStationList" None s)) = false /\
  sleeps (trace (world (snd (_request "getStationList" None s)))) =
  sleeps (trace (world s)).
Proof.
  cbv zeta.
  assert (H : is_throttled
                (fst (call "getStationList" None
                        (session_state
                           (always (ok_response (failure_envelope 20001) ∅)))))
              = false) by (vm_compute; reflexivity).
  split; [exact H |].
  exact (X4_no_sleep_unless_first_attempt_throttled _ _ _ H).
Defined.

(** ** Recovering from a dead session *)

(** X13: recovery from a dead session, end to end.  With a valid token by
    the clock, an operation whose request is answered with a session-invalid
    failure, whose re-login is accepted, and whose retry is checked before
    the expiry time that login stored sends exactly three requests: the
    operation, the login, and the operation again with the token of the new
    login.  The reply to the third request decides the outcome: its payload
    is returned, and whatever error it raises, throttling and
    session-invalid included, is raised with no further sleep or login. *)
Theorem X13_dead_session_is_renewed_once :
  forall (function : string) (data : option json) (s : State)
         (r1 r2 r3 : Response) (e1 : exn),
    expired s = false ->
    (forall rq, server (world s) (posts (world s)) rq = Replied r1) ->
    _validate_response r1 = Raise e1 ->
    is_session_invalid e1 = true ->
    (forall rq, server (world s) (S (posts (world s))) rq = Replied r2) ->
    _validate_response r2 = Ok true ->
    (forall rq, server (world s) (S (S (posts (world s)))) rq = Replied r3) ->
    PrimFloat.leb
      (PrimFloat.add (clock (world s) (S (clock_reads (world s)))) 1200%float)
      (clock (world s) (S (S (clock_reads (world s))))) = false ->
    let out := _request function data s in
    (exists rq3,
       trace (world (snd out)) =
         trace (world s) ++
           [EvPost (op_request (self s) function data);
            EvPost (login_request (self s));
            EvPost rq3] /\
       req_url rq3 = op_url (self s) function /\
       req_json rq3 = op_data data /\
       req_headers rq3 !! "XSRF-TOKEN" = resp_cookies r2 !! "XSRF-TOKEN") /\
    sleeps (trace (world (snd out))) = sleeps (trace (world s)) /\
    (forall e3, _validate_response r3 = Raise e3 -> fst out = Raise e3) /\
    (forall body, _validate_response r3 = Ok true ->
       resp_json r3 = Some body -> fst out = Ok body).
Proof.
  intros function data s r1 r2 r3 e1 Hnow H1 Hv1 Hsi H2 Hv2 H3 Hclock out.
  subst out.
  pose proof (call_valid_token function data s Hnow) as Hcall1.
  unfold next_reply in Hcall1. rewrite H1 in Hcall1. cbn zeta in Hcall1.
  rewrite Hv1 in Hcall1.
  set (s1 := after_post (tick s) (op_request (self s) function data)
               (store_cookies r1 (cookies (session (self s))))) in *.
  set (s2 := logged_in s1 r2).
  set (s3 := after_post (tick s2) (op_request (self s2) function data)
               (store_cookies r3 (cookies (session (self s2))))).
  assert (Heq : _request function data s =
                match _validate_response r3 with
                | Ok _ => match resp_json r3 with
                          | Some body => (Ok body, s3)
                          | None => (Raise JSONDecodeError, s3)
                          end
                | Raise e => (Raise e, s3)
                end).
  { assert (Hthr : is_throttled (@Raise json e1) = false) by (by destruct e1).
    rewrite request_cases, Hcall1, Hthr, Hsi. unfold bind.
    rewrite login_unfold. unfold next_reply.
    change (server (world s1)) with (server (world s)).
    change (posts (world s1)) with (S (posts (world s))).
    rewrite H2, Hv2. fold s2.
    assert (Hnow2 : expired s2 = false) by exact Hclock.
    rewrite (call_valid_token function data s2 Hnow2).
    unfold next_reply.
    change (server (world s2)) with (server (world s)).
    change (posts (world s2)) with (S (S (posts (world s)))).
    by rewrite H3. }
  rewrite Heq. clear Heq.
  assert (Htrace : trace (world s3) =
            trace (world s) ++
              [EvPost (op_request (self s) function data);
               EvPost (login_request (self s));
               EvPost (op_request (self s2) function data)]).
  { subst s3 s2 s1. cbn. rewrite <- !app_assoc. reflexivity. }
  assert (Hrq3 : req_headers (op_request (self s2) function data)
                   !! "XSRF-TOKEN" = resp_cookies r2 !! "XSRF-TOKEN").
  { cbn. rewrite lookup_omap, lookup_insert_eq.
    by destruct (resp_cookies r2 !! "XSRF-TOKEN"). }
  assert (Hsl : sleeps (trace (world s3)) = sleeps (trace (world s))).
  { rewrite Htrace, sleeps_app. cbn. by rewrite app_nil_r. }
  clearbody s3.
  destruct (_validate_response r3) as [b|e3] eqn:Hv3;
    [destruct (resp_json r3) as [body|] eqn:Hj3 |]; cbn [fst snd];
    (split; [exists (op_request (self s2) function data);
             split; [exact Htrace | split; [reflexivity |
                     split; [reflexivity | exact Hrq3]]] |]);
    (split; [exact Hsl |]); split.
  - intros e3 [=].
  - by intros body0 _ [= <-].
  - intros e3 [=].
  - intros body0 _ [=].
  - by intros e3' [= <-].
  - intros body0 [=].
Qed.

Lemma X13_witness_code_306_then_payload :
  let r1 := ok_response (failure_envelope 306) ∅ in
  let r3 := ok_response (success_envelope (JList [])) ∅ in
  let s := session_state (scripted [r1; login_ok; r3]) in
  let out := _request "getStationList" None s in
  (exists rq3,
     trace (world (snd out)) =
       trace (world s) ++
         [EvPost (op_request (self s) "getStationList" None);
          EvPost (login_request (self s));
          EvPost rq3] /\
     req_url rq3 = op_url (self s) "getStationList" /\
     req_json rq3 = op_data None /\
     req_headers rq3 !! "XSRF-TOKEN" = resp_cookies login_ok !! "XSRF-TOKEN") /\
  sleeps (trace (world (snd out))) = sleeps (trace (world s)) /\
  (forall e3, _validate_response r3 = Raise e3 -> fst out = Raise e3) /\
  (forall body, _validate_response r3 = Ok true ->
     resp_json r3 = Some body -> fst out = Ok body).
Proof.
  cbv zeta.
  set (r1 := ok_response (failure_envelope 306) ∅).
  set (r3 := ok_response (success_envelope (JList [])) ∅).
  set (s := session_state (scripted [r1; login_ok; r3])).
  apply (X13_dead_session_is_renewed_once
           "getStationList" None s r1 login_ok r3
           (HTTPError306 (failure_envelope 306))).
  - vm_compute. reflexivity.
  - intros rq. reflexivity.
  - vm_compute. reflexivity.
  - reflexivity.
  - intros rq. reflexivity.
  - vm_compute. reflexivity.
  - intros rq. reflexivity.
  - vm_compute. reflexivity.
Defined.
